(** * RedisAI Python client: command building, reply decoding, tensor codec

    A shallow embedding of [redisai/client.py] (class [Client]) together
    with the helpers of [redisai/utils.py] it calls.  Every public method
    of the client is a one-shot "build the argument list, issue one
    request, decode the reply" operation; the embedding keeps that shape:
    methods run in a small state-and-exception monad whose state records
    the requests handed to the transport and the store of the list objects
    of the replies (Python lists are mutable and [un_bytize] updates one in
    place). *)

From Stdlib Require Import ZArith Ascii String.
From Stdlib.Strings Require Import Byte.
From stdpp Require Import gmap list strings.

Set Warnings "-register-all".

Local Open Scope Z_scope.
Local Open Scope string_scope.
Local Open Scope list_scope.

(** ** Python text *)

(** A [str] is modelled by the sequence of its code units ([string]); a
    [bytes] object by [list byte].  [bytes.decode()] and the case mappings
    are those of the ASCII range, which is all the command grammar uses:
    no string outside ASCII upper-cases to ["TF"]. *)

Definition upper_ascii (c : ascii) : ascii :=
  let n := nat_of_ascii c in
  if ((97 <=? n)%nat && (n <=? 122)%nat)%bool then ascii_of_nat (n - 32) else c.

Definition lower_ascii (c : ascii) : ascii :=
  let n := nat_of_ascii c in
  if ((65 <=? n)%nat && (n <=? 90)%nat)%bool then ascii_of_nat (n + 32) else c.

Fixpoint str_map (f : ascii -> ascii) (s : string) : string :=
  match s with
  | EmptyString => EmptyString
  | String c s' => String (f c) (str_map f s')
  end.

(** [s.upper()] and [s.lower()]. *)
Definition str_upper : string -> string := str_map upper_ascii.
Definition str_lower : string -> string := str_map lower_ascii.

(** [b.decode()]. *)
Definition bytes_decode (b : list byte) : string := string_of_list_byte b.

(** ** Exceptions and outcomes *)

Inductive exn : Type :=
| ValueError        (* raised by [modelset] and by the array library *)
| TypeError         (* raised by [tensorset] *)
| KeyError          (* a missing dictionary key *)
| AttributeError    (* a method such as [decode] on an object without it *)
| IndexError
| RuntimeError
| ServerError (msg : string).  (* whatever the transport raises *)

Inductive outcome (A : Type) : Type :=
| Ok (a : A)
| Raise (e : exn).
Arguments Ok {A} a.
Arguments Raise {A} e.

Definition obind {A B} (o : outcome A) (k : A -> outcome B) : outcome B :=
  match o with
  | Ok a => k a
  | Raise e => Raise e
  end.

(** ** Python objects *)

(** Objects the caller passes to a method and the tokens of a request.
    The client only reads them, so lists are given by their elements.  A
    [float] is given by its IEEE-754 binary64 pattern: the client never
    computes with it. *)
Inductive obj : Type :=
| ONone
| OBool (b : bool)
| OInt (z : Z)
| OFloat (bits : Z)
| OStr (s : string)
| OBytes (b : list byte)
| OList (l : list obj)
| OTuple (l : list obj).

(** Objects of a reply.  A list is a mutable object: it is a reference
    into the store of list objects. *)
Definition loc := nat.

Inductive robj : Type :=
| RNone
| RInt (z : Z)
| RFloat (bits : Z)
| RStr (s : string)
| RBytes (b : list byte)
| RList (p : loc).

Abbreviation store := (gmap loc (list robj)).

(** Python truth value of an object, as [all] and [not] take it. *)
Definition truthy (o : obj) : bool :=
  match o with
  | ONone => false
  | OBool b => b
  | OInt z => negb (z =? 0)%Z
  | OFloat bits => negb (bits mod 2 ^ 63 =? 0)%Z
  | OStr s => negb (String.eqb s "")
  | OBytes b => match b with [] => false | _ => true end
  | OList l | OTuple l => match l with [] => false | _ => true end
  end.

(** [all(xs)]. *)
Definition py_all (xs : list obj) : bool := forallb truthy xs.

(** [o is None]. *)
Definition is_none (o : obj) : bool :=
  match o with ONone => true | _ => false end.

(** ** The numeric array library: dtypes and arrays *)

Inductive npdtype : Type :=
| float32 | float64 | int8 | int16 | int32 | int64 | uint8 | uint16.

(** Bytes per element. *)
Definition itemsize (d : npdtype) : nat :=
  match d with
  | int8 | uint8 => 1
  | int16 | uint16 => 2
  | float32 | int32 => 4
  | float64 | int64 => 8
  end.

Definition is_signed (d : npdtype) : bool :=
  match d with
  | int8 | int16 | int32 | int64 => true
  | _ => false
  end.

(** [str(a.dtype)]. *)
Definition dtype_name (d : npdtype) : string :=
  match d with
  | float32 => "float32" | float64 => "float64"
  | int8 => "int8" | int16 => "int16" | int32 => "int32" | int64 => "int64"
  | uint8 => "uint8" | uint16 => "uint16"
  end.

Definition all_dtypes : list npdtype :=
  [float32; float64; int8; int16; int32; int64; uint8; uint16].

(** [np.dtype(name)] on the names of the supported element types. *)
Definition dtype_of_name (s : string) : option npdtype :=
  List.find (fun d => String.eqb (dtype_name d) s) all_dtypes.

(** An array: element type, dimensions, and the elements in row-major
    order.  An integer element is its value; a floating-point element is
    its IEEE-754 pattern of [8 * itemsize] bits, which is what the buffer
    holds and what [frombuffer] reads back. *)
Record ndarray : Type := mkarray {
  a_dtype : npdtype;
  a_shape : list Z;
  a_data : list Z
}.

(** The platform's byte order. *)
Inductive byteorder : Type := LittleEndian | BigEndian.

(** ** Tensor codec ([utils.numpy2blob], [utils.blob2numpy]) *)

Definition byte_of_Z (z : Z) : byte :=
  match Byte.of_N (Z.to_N z) with
  | Some b => b
  | None => x00
  end.

Definition Z_of_byte (b : byte) : Z := Z.of_N (Byte.to_N b).

(** The [n] low-order bytes of [u], least significant first. *)
Fixpoint le_bytes (n : nat) (u : Z) : list byte :=
  match n with
  | O => []
  | S n' => byte_of_Z (u mod 256) :: le_bytes n' (u / 256)
  end.

(** The unsigned number a little-endian byte sequence holds. *)
Fixpoint le_value (bs : list byte) : Z :=
  match bs with
  | [] => 0
  | b :: bs' => Z_of_byte b + 256 * le_value bs'
  end.

Definition elem_bits (d : npdtype) : Z := 8 * Z.of_nat (itemsize d).

(** The values an element of type [d] can hold. *)
Definition elem_range (d : npdtype) (v : Z) : Prop :=
  if is_signed d
  then - 2 ^ (elem_bits d - 1) <= v < 2 ^ (elem_bits d - 1)
  else 0 <= v < 2 ^ elem_bits d.

(** The bytes of one element in memory (two's complement for the signed
    types). *)
Definition elem_bytes (order : byteorder) (d : npdtype) (v : Z) : list byte :=
  let bs := le_bytes (itemsize d) (v mod 2 ^ elem_bits d) in
  match order with
  | LittleEndian => bs
  | BigEndian => rev bs
  end.

(** The element a group of [itemsize d] bytes holds. *)
Definition elem_of_bytes (order : byteorder) (d : npdtype) (bs : list byte) : Z :=
  let u := le_value (match order with LittleEndian => bs | BigEndian => rev bs end) in
  if (is_signed d && (2 ^ (elem_bits d - 1) <=? u)%Z)%bool
  then u - 2 ^ elem_bits d
  else u.

(** The number of elements a shape implies. *)
Definition shape_size (shape : list Z) : Z := fold_right Z.mul 1 shape.

(** [count] consecutive groups of [w] bytes. *)
Fixpoint chunks (w count : nat) (bs : list byte) : list (list byte) :=
  match count with
  | O => []
  | S c => take w bs :: chunks w c (drop w bs)
  end.

(** Modelled from the spec: the dtype tag [numpy2blob] derives from the
    array's element type.  [utils.py] is not part of the sources at hand;
    the spec says the tag is derived from the element type, and
    [tensorget] names the tags ["FLOAT"] and ["DOUBLE"] of the two
    floating-point kinds; an integer type is tagged by its upper-cased
    name. *)
Definition dtype_tag (d : npdtype) : string :=
  match d with
  | float32 => "FLOAT"
  | float64 => "DOUBLE"
  | _ => str_upper (dtype_name d)
  end.

(** Modelled from the spec: the element type [blob2numpy] reads a dtype tag
    as, the inverse reading of [dtype_tag]. *)
Definition dtype_of_tag (tag : string) : option npdtype :=
  if String.eqb tag "FLOAT" then Some float32
  else if String.eqb tag "DOUBLE" then Some float64
  else dtype_of_name (str_lower tag).

(** [bytes(tensor.data)]: the raw memory contents, element after element
    in the platform's byte layout. *)
Definition tobytes (order : byteorder) (a : ndarray) : list byte :=
  concat (map (elem_bytes order (a_dtype a)) (a_data a)).

(** Modelled from the spec: [utils.numpy2blob], missing from the sources.
    "Encode direction (native array to wire form): derive dtype tag from
    the array's element type, derive shape from the array's dimensions,
    and serialize the raw memory contents to a binary blob using the
    platform's native byte layout." *)
Definition numpy2blob (order : byteorder) (tensor : ndarray)
  : string * list Z * list byte :=
  (dtype_tag (a_dtype tensor), a_shape tensor, tobytes order tensor).

(** [np.frombuffer(value, dtype=d)]: the buffer must hold a whole number of
    elements. *)
Definition frombuffer (order : byteorder) (d : npdtype) (value : list byte)
  : outcome (list Z) :=
  let w := itemsize d in
  if (length value mod w =? 0)%nat
  then Ok (map (elem_of_bytes order d) (chunks w (length value / w) value))
  else Raise ValueError.

(** [a.reshape(shape)]: the shape must imply as many elements as there
    are. *)
Definition reshape (d : npdtype) (elems : list Z) (shape : list Z)
  : outcome ndarray :=
  if (forallb (fun n => 0 <=? n)%Z shape
      && (shape_size shape =? Z.of_nat (length elems))%Z)%bool
  then Ok (mkarray d shape elems)
  else Raise ValueError.

(** Modelled from the spec: [utils.blob2numpy], missing from the sources.
    "Decode direction (wire form to native array): given dtype tag, shape,
    and a binary blob, reinterpret the blob's bytes as a contiguous array
    of the given element type and reshape to the given shape.  Fails if
    the blob's byte length does not correspond to shape's implied element
    count times the dtype's byte width." *)
Definition blob2numpy (order : byteorder)
    (value : list byte) (shape : list Z) (dtype : string) : outcome ndarray :=
  match dtype_of_tag dtype with
  | None => Raise TypeError
  | Some d => obind (frombuffer order d value) (fun elems => reshape d elems shape)
  end.

(** What every native array satisfies: non-negative dimensions, as many
    elements as the shape implies, every element a value of the element
    type. *)
Definition native_array (a : ndarray) : Prop :=
  Forall (fun n => 0 <= n) (a_shape a)
  /\ shape_size (a_shape a) = Z.of_nat (length (a_data a))
  /\ Forall (elem_range (a_dtype a)) (a_data a).

(** ** The client's state and its monad *)

(** What a call can change: the requests handed to the transport so far
    (each an ordered argument list), and the store of the list objects
    the replies are made of. *)
Record world : Type := mkworld {
  sent : list (list obj);
  heap : store
}.

Definition M (A : Type) : Type := world -> outcome A * world.

#[global] Instance M_ret : MRet M := fun A a w => (Ok a, w).

#[global] Instance M_bind : MBind M := fun A B k m w =>
  match m w with
  | (Ok a, w') => k a w'
  | (Raise e, w') => (Raise e, w')
  end.

Definition raise {A} (e : exn) : M A := fun w => (Raise e, w).

Definition lift {A} (o : outcome A) : M A := fun w => (o, w).

(** The contents of the list object at [p]. *)
Definition load (p : loc) : M (list robj) := fun w =>
  match heap w !! p with
  | Some items => (Ok items, w)
  | None => (Raise RuntimeError, w)
  end.

(** In-place replacement of the contents of the list object at [p]. *)
Definition store_list (p : loc) (items : list robj) : M unit := fun w =>
  (Ok tt, mkworld (sent w) (<[p := items]> (heap w))).

(** ** Dictionaries *)

(** A [dict] keeps its keys in the order of their first insertion; storing
    under a key already present replaces the value where it stands. *)
Definition dict : Type := list (string * robj).

Fixpoint dict_set (d : dict) (k : string) (v : robj) : dict :=
  match d with
  | [] => [(k, v)]
  | (k', v') :: d' =>
      if String.eqb k' k then (k, v) :: d' else (k', v') :: dict_set d' k v
  end.

Fixpoint dict_get (d : dict) (k : string) : option robj :=
  match d with
  | [] => None
  | (k', v') :: d' => if String.eqb k' k then Some v' else dict_get d' k
  end.

(** [d[k]]. *)
Definition getitem (d : dict) (k : string) : outcome robj :=
  match dict_get d k with
  | Some v => Ok v
  | None => Raise KeyError
  end.


(** ** Reply decoding ([utils.list2dict], [utils.un_bytize], [utils.listify]) *)

(** Threads a store through the elements of a list. *)
Fixpoint thread_store (g : store -> robj -> robj * store)
    (h : store) (items : list robj) : list robj * store :=
  match items with
  | [] => ([], h)
  | x :: rest =>
      let '(x', h1) := g h x in
      let '(rest', h2) := thread_store g h1 rest in
      (x' :: rest', h2)
  end.

(** Binary text becomes text; a list value is decoded element by element,
    to any depth ([fuel] bounds the depth, and the number of list objects
    of the store bounds the depth of a reply). *)
Fixpoint decode_nested (fuel : nat) (h : store) (v : robj) : robj * store :=
  match v with
  | RBytes b => (RStr (bytes_decode b), h)
  | RList p =>
      match fuel, h !! p with
      | S f, Some items =>
          let '(items', h') := thread_store (decode_nested f) h items in
          (v, <[p := items']> h')
      | _, _ => (v, h)
      end
  | _ => (v, h)
  end.

(** The key an even-indexed element stands for: decoded to text and
    lower-cased. *)
Definition decode_key (k : robj) : outcome string :=
  match k with
  | RBytes b => Ok (str_lower (bytes_decode b))
  | _ => Raise AttributeError
  end.

(** The value an odd-indexed element stands for.  The blob is a raw binary
    payload and stays one. *)
Definition decode_value (key : string) (v : robj) : M robj := fun w =>
  if String.eqb key "blob" then (Ok v, w)
  else
    let '(v', h') := decode_nested (size (heap w)) (heap w) v in
    (Ok v', mkworld (sent w) h').

Fixpoint list2dict_fold (items : list robj) (out : dict) : M dict :=
  match items with
  | [] => mret out
  | [_] => raise RuntimeError
  | k :: v :: rest =>
      key ← lift (decode_key k);
      val ← decode_value key v;
      list2dict_fold rest (dict_set out key val)
  end.

(** Modelled from the spec: [utils.list2dict], missing from the sources.
    "A flat alternating key/value reply is folded into a mapping by
    treating every even-indexed element as a key (decoded to text,
    case-normalized) and every odd-indexed element as its value; nested
    list values are recursively decoded element-wise when they contain
    binary text."  The reply record "has even length"; the model raises on
    the others, and on a key that is not binary text. *)
Definition list2dict (lst : robj) : M dict :=
  match lst with
  | RList p => items ← load p; list2dict_fold items []
  | _ => raise TypeError
  end.

Fixpoint un_bytize_loop (p : loc) (target : robj -> outcome robj)
    (ixs : list nat) : M unit :=
  match ixs with
  | [] => mret tt
  | ix :: rest =>
      arr ← load p;
      match arr !! ix with
      | None => raise IndexError
      | Some o =>
          v ← lift (target o);
          store_list p (<[ix := v]> arr);;
          un_bytize_loop p target rest
      end
  end.

(** Modelled from the spec: [utils.un_bytize], missing from the sources.
    "Value-list coercion: given a flat list of textual/numeric tokens and
    a target scalar kind (floating-point or integer), converts every
    element in place."  The list object itself is returned. *)
Definition un_bytize (arr : robj) (target : robj -> outcome robj) : M robj :=
  match arr with
  | RList p =>
      items ← load p;
      un_bytize_loop p target (seq 0 (length items));;
      mret arr
  | _ => raise TypeError
  end.

(** Modelled from the spec: [utils.listify], missing from the sources; the
    spec names it a value coercion, and the client concatenates its result
    to a list or spreads it.  A sequence stands for its elements, any other
    value for itself alone. *)
Definition listify (inp : obj) : list obj :=
  match inp with
  | OList l | OTuple l => l
  | _ => [inp]
  end.

(** ** Python built-ins the client relies on *)

(** [x == s] for a reply object [x] and a [str] literal [s]: only a [str]
    equals a [str]. *)
Definition eq_str (x : robj) (s : string) : bool :=
  match x with
  | RStr s' => String.eqb s' s
  | _ => false
  end.

(** [x in (s1, s2, ...)]. *)
Definition in_strs (x : robj) (ss : list string) : bool := existsb (eq_str x) ss.

(** [reply.decode()] on the confirmation a command returns. *)
Definition reply_decode (r : robj) : outcome string :=
  match r with
  | RBytes b => Ok (bytes_decode b)
  | _ => Raise AttributeError
  end.

(** All elements through a conversion that may raise, left to right. *)
Fixpoint convert_all {A B} (f : A -> outcome B) (l : list A) : outcome (list B) :=
  match l with
  | [] => Ok []
  | x :: rest =>
      obind (f x) (fun y => obind (convert_all f rest) (fun ys => Ok (y :: ys)))
  end.

(** The arguments [blob2numpy] is declared to take, from reply objects. *)
Definition as_bytes (v : robj) : outcome (list byte) :=
  match v with RBytes b => Ok b | _ => Raise TypeError end.

Definition as_int (v : robj) : outcome Z :=
  match v with RInt z => Ok z | _ => Raise TypeError end.

Definition as_str (v : robj) : outcome string :=
  match v with RStr s => Ok s | _ => Raise AttributeError end.

Definition as_shape (v : robj) : M (list Z) :=
  match v with
  | RList p => items ← load p; lift (convert_all as_int items)
  | _ => raise TypeError
  end.

(** The call [utils.blob2numpy(value, shape, dtype)] on objects of a
    reply: the buffer must be a bytes object, the shape a list of
    integers, the dtype a [str]. *)
Definition call_blob2numpy (order : byteorder) (value shape dtype : robj)
  : M ndarray :=
  value ← lift (as_bytes value);
  dims ← as_shape shape;
  tag ← lift (as_str dtype);
  lift (blob2numpy order value dims tag).

(** The tensor argument of [tensorset]: a [np.ndarray] or any other
    object. *)
Inductive tensor_arg : Type :=
| Ndarray (a : ndarray)
| Obj (o : obj).

(** What [tensorget] returns: [Union[dict, np.ndarray]]. *)
Inductive tensor_result : Type :=
| AsDict (d : dict)
| AsArray (a : ndarray).

(** ** The client ([redisai/client.py]) *)

Section Client.

(** The transport: the reply of the server to an argument list, as the
    object graph the connection builds for it, or the error it raises. *)
Variable server : list obj -> outcome (robj * store).

(** The built-ins [float] and [int] on a reply token. *)
Variable py_float : robj -> outcome Z.
Variable py_int : robj -> outcome Z.

(** The byte order of the platform. *)
Variable order : byteorder.

(** [self.execute_command( *args )]: one request, one reply. *)
Definition execute_command (args : list obj) : M robj := fun w =>
  let issued := sent w ++ [args] in
  match server args with
  | Ok (r, h) => (Ok r, mkworld issued (h ∪ heap w))
  | Raise e => (Raise e, mkworld issued (heap w))
  end.

Definition target_float (o : robj) : outcome robj :=
  obind (py_float o) (fun bits => Ok (RFloat bits)).

Definition target_int (o : robj) : outcome robj :=
  obind (py_int o) (fun z => Ok (RInt z)).

(** The argument list [modelset] builds, or the error it raises before
    building one. *)
Definition modelset_args (name : obj) (backend : string) (device data : obj)
    (batch minbatch tag inputs outputs : obj) : outcome (list obj) :=
  let args := [OStr "AI.MODELSET"; name; OStr backend; device] in
  let args := if negb (is_none batch) then args ++ [OStr "BATCHSIZE"; batch] else args in
  let args := if negb (is_none minbatch) then args ++ [OStr "MINBATCHSIZE"; minbatch] else args in
  let args := if negb (is_none tag) then args ++ [OStr "TAG"; tag] else args in
  obind (if String.eqb (str_upper backend) "TF" then
           if negb (py_all [inputs; outputs]) then Raise ValueError
           else
             let args := args ++ ([OStr "INPUTS"] ++ listify inputs) in
             Ok (args ++ ([OStr "OUTPUTS"] ++ listify outputs))
         else Ok args)
        (fun args => Ok (args ++ [data])).

Definition modelset (name : obj) (backend : string) (device data : obj)
    (batch minbatch tag inputs outputs : obj) : M string :=
  args ← lift (modelset_args name backend device data batch minbatch tag inputs outputs);
  r ← execute_command args;
  lift (reply_decode r).

Definition modelget (name : obj) (meta_only : bool) : M dict :=
  let args := [OStr "AI.MODELGET"; name; OStr "META"] in
  let args := if negb meta_only then args ++ [OStr "BLOB"] else args in
  rv ← execute_command args;
  list2dict rv.

(** The argument list [tensorset] builds, or the error it raises instead.
    [shape] is a sequence of integers or [None]; [dtype] is passed on as
    it is. *)
Definition tensorset_args (key : obj) (tensor : tensor_arg)
    (shape : option (list Z)) (dtype : obj) : outcome (list obj) :=
  match tensor with
  | Ndarray a =>
      let '(dtype, shape, blob) := numpy2blob order a in
      Ok ([OStr "AI.TENSORSET"; key; OStr dtype] ++ map OInt shape
          ++ [OStr "BLOB"; OBytes blob])
  | Obj (OList l) | Obj (OTuple l) =>
      let shape :=
        match shape with
        | None => [Z.of_nat (length l)]
        | Some dims => dims
        end in
      Ok ([OStr "AI.TENSORSET"; key; dtype] ++ map OInt shape
          ++ [OStr "VALUES"] ++ l)
  | Obj _ => Raise TypeError
  end.

Definition tensorset (key : obj) (tensor : tensor_arg)
    (shape : option (list Z)) (dtype : obj) : M string :=
  args ← lift (tensorset_args key tensor shape dtype);
  r ← execute_command args;
  lift (reply_decode r).

Definition tensorget (key : obj) (as_numpy meta_only : bool) : M tensor_result :=
  let args := [OStr "AI.TENSORGET"; key; OStr "META"] in
  let args :=
    if negb meta_only then
      if as_numpy then args ++ [OStr "BLOB"] else args ++ [OStr "VALUES"]
    else args in
  res ← execute_command args;
  res ← list2dict res;
  if meta_only then mret (AsDict res)
  else if as_numpy then
    blob ← lift (getitem res "blob");
    shape ← lift (getitem res "shape");
    dtype ← lift (getitem res "dtype");
    a ← call_blob2numpy order blob shape dtype;
    mret (AsArray a)
  else
    dtype ← lift (getitem res "dtype");
    let target := if in_strs dtype ["FLOAT"; "DOUBLE"] then target_float else target_int in
    values ← lift (getitem res "values");
    un_bytize values target;;
    mret (AsDict res).

End Client.

(** ** The other commands of the client *)

Section ClientCommands.

Variable server : list obj -> outcome (robj * store).



Definition modelrun_args (name inputs outputs : obj) : list obj :=
  [OStr "AI.MODELRUN"; name; OStr "INPUTS"] ++ listify inputs
  ++ [OStr "OUTPUTS"] ++ listify outputs.


(** [if tag:] is a test of the truth value of the tag. *)
Definition scriptset_args (name device script tag : obj) : list obj :=
  let args := [OStr "AI.SCRIPTSET"; name; device] in
  let args := if truthy tag then args ++ [OStr "TAG"; tag] else args in
  args ++ [script].





Definition scriptrun_args (name function inputs outputs : obj) : list obj :=
  [OStr "AI.SCRIPTRUN"; name; function; OStr "INPUTS"] ++ listify inputs
  ++ [OStr "OUTPUTS"] ++ listify outputs.




End ClientCommands.

(** The request a [tensorget] call makes. *)
Definition tensorget_args (key : obj) (as_numpy meta_only : bool) : list obj :=
  [OStr "AI.TENSORGET"; key; OStr "META"]
  ++ (if meta_only then [] else if as_numpy then [OStr "BLOB"] else [OStr "VALUES"]).


(** The keys [tensorget] reads from the decoded mapping, in the order it
    reads them. *)
Definition keys_read (as_numpy : bool) : list string :=
  if as_numpy then ["blob"; "shape"; "dtype"] else ["dtype"; "values"].

(** Where the byte of significance [j] (0 the least) of an element of [w]
    bytes stands within the element's bytes in memory. *)
Definition byte_position (order : byteorder) (w j : nat) : nat :=
  match order with
  | LittleEndian => j
  | BigEndian => w - 1 - j
  end.

(** An action that issues no request. *)
Definition keeps_sent {A} (m : M A) : Prop :=
  forall w, sent (snd (m w)) = sent w.




(** ** Vocabulary of the statements *)

(** A flat alternating key/value reply: every key is binary text. *)
Definition flat_reply (kvs : list (list byte * robj)) : list robj :=
  concat (map (fun kv => [RBytes (fst kv); snd kv]) kvs).

(** A key as the mapping holds it. *)
Definition norm_key (k : list byte) : string := str_lower (bytes_decode k).

(** A value as the mapping holds it: binary text as text, the blob and
    everything else as the reply has it (a list stays the same object). *)
Definition value_text (key : string) (v : robj) : robj :=
  if String.eqb key "blob" then v
  else match v with
       | RBytes b => RStr (bytes_decode b)
       | _ => v
       end.

(** The entry one pair of the reply stands for. *)
Definition entry_of (kv : list byte * robj) : string * robj :=
  (norm_key (fst kv), value_text (norm_key (fst kv)) (snd kv)).

(** The mapping a sequence of key/value pairs folds into. *)
Definition dict_of_pairs (kvs : list (list byte * robj)) : dict :=
  fold_left (fun d kv => dict_set d (fst (entry_of kv)) (snd (entry_of kv))) kvs [].


(** The value that follows the last occurrence of the key [k]. *)
Definition last_value (kvs : list (list byte * robj)) (k : string) : option robj :=
  fold_left
    (fun acc kv => if String.eqb (fst (entry_of kv)) k then Some (snd (entry_of kv)) else acc)
    kvs None.




(** [None] or an empty list: no node names. *)
Definition no_names (o : obj) : bool :=
  match o with
  | ONone | OList [] => true
  | _ => false
  end.

(** An optional keyword group of [modelset]: the marker and the value,
    when the value is given. *)
Definition option_group (marker : string) (v : obj) : list obj :=
  if is_none v then [] else [OStr marker; v].

(** The tokens of a [modelset] request before the node names. *)
Definition modelset_head (name : obj) (backend : string) (device : obj)
    (batch minbatch tag : obj) : list obj :=
  [OStr "AI.MODELSET"; name; OStr backend; device]
  ++ option_group "BATCHSIZE" batch
  ++ option_group "MINBATCHSIZE" minbatch
  ++ option_group "TAG" tag.

(** The shape [tensorset] sends for a sequence of [n] elements. *)
Definition shape_or_default (shape : option (list Z)) (n : nat) : list Z :=
  match shape with
  | None => [Z.of_nat n]
  | Some dims => dims
  end.

(** A list or a tuple with the given elements. *)
Definition sequence (is_tuple : bool) (l : list obj) : tensor_arg :=
  Obj (if is_tuple then OTuple l else OList l).


(** The reply to a blob request for a stored tensor: dtype tag, shape and
    blob, under their keys, the shape a list object of its own. *)
Definition blob_reply (q : loc) (tag : string) (blob : list byte) : list robj :=
  flat_reply [(list_byte_of_string "dtype", RBytes (list_byte_of_string tag));
              (list_byte_of_string "shape", RList q);
              (list_byte_of_string "blob", RBytes blob)].

(** ** Sample servers and data *)

(** A server that confirms every command. *)
Definition confirming_server (args : list obj) : outcome (robj * store) :=
  Ok (RBytes (list_byte_of_string "OK"), ∅).

(** A server that holds one tensor and answers every request with it. *)
Definition tensor_store (tag : string) (shape : list Z) (blob : list byte) : store :=
  {[ 0%nat := blob_reply 1%nat tag blob; 1%nat := map RInt shape ]}.

Definition tensor_server (tag : string) (shape : list Z) (blob : list byte)
    (args : list obj) : outcome (robj * store) :=
  Ok (RList 0%nat, tensor_store tag shape blob).

(** The world before any call. *)
Definition initial_world : world := mkworld [] ∅.

(** A 2 x 2 array of 16-bit integers. *)
Definition sample_array : ndarray := mkarray int16 [2; 2] [1; -2; 300; -32768].

(** The metadata of a 2 x 2 tensor of dtype FLOAT, as the server lists it,
    and a server that answers with it. *)
Definition meta_pairs (q : loc) : list (list byte * robj) :=
  [(list_byte_of_string "dtype", RBytes (list_byte_of_string "FLOAT"));
   (list_byte_of_string "shape", RList q)].

Definition meta_server (args : list obj) : outcome (robj * store) :=
  Ok (RList 0%nat, {[ 0%nat := flat_reply (meta_pairs 1%nat); 1%nat := [RInt 2; RInt 2] ]}).



(** A conversion that accepts integer tokens only. *)
Definition token_value (o : robj) : outcome Z :=
  match o with
  | RInt z => Ok z
  | _ => Raise TypeError
  end.



(** * Properties *)

(** ** The tensor codec *)

Lemma Z_of_byte_of_Z (z : Z) : 0 <= z < 256 -> Z_of_byte (byte_of_Z z) = z.
Proof.
  intros Hz. unfold Z_of_byte, byte_of_Z.
  destruct (Byte.of_N (Z.to_N z)) as [b|] eqn:E.
  - apply Byte.to_of_N in E. rewrite E. apply Z2N.id. lia.
  - apply Byte.of_N_None_iff in E. apply N2Z.inj_lt in E.
    rewrite Z2N.id in E; [|lia]. simpl in E. lia.
Qed.

Lemma length_le_bytes (n : nat) (u : Z) : length (le_bytes n u) = n.
Proof. revert u. induction n as [|n IH]; intros u; simpl; [|rewrite IH]; reflexivity. Qed.

Lemma le_value_le_bytes (n : nat) (u : Z) :
  0 <= u -> le_value (le_bytes n u) = u mod 256 ^ Z.of_nat n.
Proof.
  revert u. induction n as [|n IH]; intros u Hu.
  - simpl. now rewrite Z.mod_1_r.
  - cbn [le_bytes le_value].
    rewrite Z_of_byte_of_Z by (apply Z.mod_pos_bound; lia).
    rewrite IH by (apply Z.div_pos; lia).
    rewrite Nat2Z.inj_succ, Z.pow_succ_r by lia.
    rewrite Z.rem_mul_r by lia. reflexivity.
Qed.

Lemma le_value_elem_bytes (order : byteorder) (d : npdtype) (v : Z) :
  le_value (match order with
            | LittleEndian => elem_bytes order d v
            | BigEndian => rev (elem_bytes order d v)
            end)
  = v mod 2 ^ elem_bits d.
Proof.
  assert (Hpow : 256 ^ Z.of_nat (itemsize d) = 2 ^ elem_bits d).
  { unfold elem_bits. rewrite Z.pow_mul_r by lia. reflexivity. }
  unfold elem_bytes. destruct order; rewrite ?rev_involutive;
    rewrite le_value_le_bytes by (apply Z.mod_pos_bound; destruct d; reflexivity);
    rewrite Hpow; apply Z.mod_mod; destruct d; discriminate.
Qed.

Lemma elem_of_bytes_elem_bytes (order : byteorder) (d : npdtype) (v : Z) :
  elem_range d v -> elem_of_bytes order d (elem_bytes order d v) = v.
Proof.
  intros Hv. unfold elem_of_bytes. rewrite le_value_elem_bytes.
  unfold elem_range in Hv.
  assert (Hbits : 0 < elem_bits d) by (destruct d; reflexivity).
  assert (Hhalf : 2 ^ elem_bits d = 2 * 2 ^ (elem_bits d - 1)).
  { rewrite <- Z.pow_succ_r by lia. f_equal. lia. }
  assert (Hpos : 0 < 2 ^ (elem_bits d - 1)) by (apply Z.pow_pos_nonneg; lia).
  destruct (is_signed d); cbn [andb].
  - destruct (Z_lt_le_dec v 0) as [Hneg|Hnn].
    + rewrite <- (Z_mod_plus_full v 1), Z.mod_small by lia.
      destruct (Z.leb_spec (2 ^ (elem_bits d - 1)) (v + 1 * 2 ^ elem_bits d)); lia.
    + rewrite Z.mod_small by lia.
      destruct (Z.leb_spec (2 ^ (elem_bits d - 1)) v); lia.
  - apply Z.mod_small. lia.
Qed.

Lemma length_elem_bytes (order : byteorder) (d : npdtype) (v : Z) :
  length (elem_bytes order d v) = itemsize d.
Proof.
  unfold elem_bytes. destruct order; [|rewrite length_rev]; apply length_le_bytes.
Qed.

Lemma length_concat_uniform (w : nat) (ls : list (list byte)) :
  Forall (fun l => length l = w) ls -> length (concat ls) = (length ls * w)%nat.
Proof.
  induction 1 as [|l ls Hl _ IH]; simpl; [reflexivity|].
  rewrite length_app, IH, Hl. reflexivity.
Qed.

Lemma chunks_concat (w : nat) (ls : list (list byte)) :
  Forall (fun l => length l = w) ls -> chunks w (length ls) (concat ls) = ls.
Proof.
  induction 1 as [|l ls Hl _ IH]; simpl; [reflexivity|].
  rewrite take_app_length', drop_app_length' by (symmetry; exact Hl).
  rewrite IH. reflexivity.
Qed.

Lemma itemsize_pos (d : npdtype) : itemsize d <> 0%nat.
Proof. destruct d; discriminate. Qed.

Lemma decode_encode_elems (order : byteorder) (d : npdtype) (vs : list Z) :
  Forall (elem_range d) vs ->
  map (fun v => elem_of_bytes order d (elem_bytes order d v)) vs = vs.
Proof.
  induction 1 as [|v vs Hv _ IH]; simpl; [reflexivity|].
  rewrite elem_of_bytes_elem_bytes by exact Hv. now rewrite IH.
Qed.

Lemma frombuffer_tobytes (order : byteorder) (a : ndarray) :
  Forall (elem_range (a_dtype a)) (a_data a) ->
  frombuffer order (a_dtype a) (tobytes order a) = Ok (a_data a).
Proof.
  intros Hrange. unfold frombuffer, tobytes.
  set (d := a_dtype a) in *.
  assert (Hlen : Forall (fun l => length l = itemsize d)
                   (map (elem_bytes order d) (a_data a))).
  { apply Forall_map, Forall_forall. intros v _. apply length_elem_bytes. }
  rewrite (length_concat_uniform _ _ Hlen), length_map.
  rewrite Nat.Div0.mod_mul, Nat.div_mul by apply itemsize_pos.
  cbn [Nat.eqb].
  rewrite <- (length_map (elem_bytes order d)) at 1.
  rewrite (chunks_concat _ _ Hlen), map_map. f_equal.
  apply decode_encode_elems, Hrange.
Qed.

Lemma dtype_of_tag_dtype_tag (d : npdtype) : dtype_of_tag (dtype_tag d) = Some d.
Proof. destruct d; reflexivity. Qed.

Lemma reshape_native (a : ndarray) :
  native_array a -> reshape (a_dtype a) (a_data a) (a_shape a) = Ok a.
Proof.
  intros (Hdims & Hsize & _). unfold reshape.
  assert (Hnn : forallb (fun n => (0 <=? n)%Z) (a_shape a) = true).
  { clear Hsize. induction Hdims as [|n ns Hn _ IH]; simpl; [reflexivity|].
    apply andb_true_intro. split; [apply Z.leb_le, Hn | exact IH]. }
  rewrite Hnn, Hsize, Z.eqb_refl. destruct a; reflexivity.
Qed.

Lemma blob2numpy_numpy2blob (order : byteorder) (a : ndarray) :
  native_array a ->
  blob2numpy order (tobytes order a) (a_shape a) (dtype_tag (a_dtype a)) = Ok a.
Proof.
  intros Ha. unfold blob2numpy.
  rewrite dtype_of_tag_dtype_tag, frombuffer_tobytes by apply Ha.
  apply reshape_native, Ha.
Qed.

(** *** The bytes of the blob, one by one *)

Lemma le_bytes_lookup (n : nat) (u : Z) (j : nat) :
  (j < n)%nat ->
  le_bytes n u !! j = Some (byte_of_Z ((u / 256 ^ Z.of_nat j) mod 256)).
Proof.
  revert u j. induction n as [|n IH]; intros u [|j] Hj; try lia.
  - cbn [le_bytes]. cbn [lookup list_lookup]. now rewrite Z.pow_0_r, Z.div_1_r.
  - cbn [le_bytes]. cbn [lookup list_lookup].
    change (le_bytes n (u / 256) !! j
            = Some (byte_of_Z ((u / 256 ^ Z.of_nat (S j)) mod 256))).
    rewrite IH by lia.
    rewrite Nat2Z.inj_succ, Z.pow_succ_r, Z.div_div by lia. reflexivity.
Qed.

Lemma elem_bytes_lookup (order : byteorder) (d : npdtype) (v : Z) (j : nat) :
  (j < itemsize d)%nat ->
  elem_bytes order d v !! byte_position order (itemsize d) j
  = Some (byte_of_Z (((v mod 2 ^ elem_bits d) / 256 ^ Z.of_nat j) mod 256)).
Proof.
  intros Hj. unfold elem_bytes, byte_position. destruct order.
  - apply le_bytes_lookup, Hj.
  - rewrite rev_alt.
    change (rev_append ?l []) with (reverse l).
    rewrite reverse_lookup by (rewrite length_le_bytes; lia).
    rewrite length_le_bytes.
    replace (itemsize d - S (itemsize d - 1 - j))%nat with j by lia.
    apply le_bytes_lookup, Hj.
Qed.

Lemma concat_lookup_uniform (w : nat) (ls : list (list byte)) (i k : nat) (l : list byte) :
  Forall (fun l => length l = w) ls ->
  ls !! i = Some l -> (k < w)%nat ->
  concat ls !! (i * w + k)%nat = l !! k.
Proof.
  intros Hlen. revert i. induction Hlen as [|l0 ls Hl0 _ IH]; intros i Hi Hk.
  - discriminate Hi.
  - cbn [concat]. destruct i as [|i].
    + injection Hi as ->. cbn. apply lookup_app_l. lia.
    + rewrite lookup_app_r by lia.
      replace (S i * w + k - length l0)%nat with (i * w + k)%nat by lia.
      apply IH; [exact Hi | exact Hk].
Qed.

Lemma map_lookup_Some {A B} (f : A -> B) (l : list A) (i : nat) (x : A) :
  l !! i = Some x -> map f l !! i = Some (f x).
Proof.
  revert i. induction l as [|y l IH]; intros [|i] H; try discriminate H.
  - injection H as ->. reflexivity.
  - cbn. apply IH, H.
Qed.

Lemma tobytes_lookup (order : byteorder) (a : ndarray) (i j : nat) (v : Z) :
  a_data a !! i = Some v -> (j < itemsize (a_dtype a))%nat ->
  tobytes order a
    !! (i * itemsize (a_dtype a) + byte_position order (itemsize (a_dtype a)) j)%nat
  = Some (byte_of_Z (((v mod 2 ^ elem_bits (a_dtype a)) / 256 ^ Z.of_nat j) mod 256)).
Proof.
  intros Hv Hj. unfold tobytes.
  rewrite (concat_lookup_uniform (itemsize (a_dtype a)) _ i _
             (elem_bytes order (a_dtype a) v)).
  - apply elem_bytes_lookup, Hj.
  - apply Forall_map, Forall_forall. intros x _. apply length_elem_bytes.
  - apply map_lookup_Some, Hv.
  - unfold byte_position. destruct order; lia.
Qed.

Lemma length_tobytes (order : byteorder) (a : ndarray) :
  length (tobytes order a) = (length (a_data a) * itemsize (a_dtype a))%nat.
Proof.
  unfold tobytes.
  rewrite (length_concat_uniform (itemsize (a_dtype a))), length_map; [reflexivity|].
  apply Forall_map, Forall_forall. intros x _. apply length_elem_bytes.
Qed.

(** ** Building commands *)

Section CommandBuilding.

Variable server : list obj -> outcome (robj * store).
Variable order : byteorder.

(** A method that has built its argument list issues exactly that
    request, whatever the reply. *)
Lemma sent_after_request (args : list obj) (w : world) :
  sent (snd ((r ← execute_command server args; lift (reply_decode r)) w))
  = sent w ++ [args].
Proof.
  unfold mbind, M_bind, execute_command, lift.
  destruct (server args) as [[r h]|e]; reflexivity.
Qed.

Lemma modelset_head_eq name backend device batch minbatch tag :
  (let args := [OStr "AI.MODELSET"; name; OStr backend; device] in
   let args := if negb (is_none batch) then args ++ [OStr "BATCHSIZE"; batch] else args in
   let args := if negb (is_none minbatch) then args ++ [OStr "MINBATCHSIZE"; minbatch] else args in
   if negb (is_none tag) then args ++ [OStr "TAG"; tag] else args)
  = modelset_head name backend device batch minbatch tag.
Proof.
  unfold modelset_head, option_group.
  destruct (is_none batch), (is_none minbatch), (is_none tag); reflexivity.
Qed.

Lemma modelset_args_tf name backend device data batch minbatch tag inputs outputs :
  str_upper backend = "TF" ->
  modelset_args name backend device data batch minbatch tag inputs outputs
  = if py_all [inputs; outputs]
    then Ok (modelset_head name backend device batch minbatch tag
             ++ [OStr "INPUTS"] ++ listify inputs
             ++ [OStr "OUTPUTS"] ++ listify outputs ++ [data])
    else Raise ValueError.
Proof.
  intros Htf. unfold modelset_args.
  rewrite modelset_head_eq, Htf. cbn [String.eqb Ascii.eqb Bool.eqb].
  destruct (py_all [inputs; outputs]); cbn [negb obind]; [|reflexivity].
  rewrite <- !app_assoc. reflexivity.
Qed.

Lemma modelset_raises name backend device data batch minbatch tag inputs outputs e w :
  modelset_args name backend device data batch minbatch tag inputs outputs = Raise e ->
  modelset server name backend device data batch minbatch tag inputs outputs w
  = (Raise e, w).
Proof. intros H. unfold modelset, mbind, M_bind, lift. rewrite H. reflexivity. Qed.

Lemma modelset_sends name backend device data batch minbatch tag inputs outputs args w :
  modelset_args name backend device data batch minbatch tag inputs outputs = Ok args ->
  sent (snd (modelset server name backend device data batch minbatch tag inputs outputs w))
  = sent w ++ [args].
Proof.
  intros H. rewrite <- sent_after_request.
  unfold modelset. unfold mbind at 1, M_bind at 1, lift at 1. rewrite H. reflexivity.
Qed.

Lemma tensorset_sends key tensor shape dtype args w :
  tensorset_args order key tensor shape dtype = Ok args ->
  sent (snd (tensorset server order key tensor shape dtype w)) = sent w ++ [args].
Proof.
  intros H. rewrite <- sent_after_request.
  unfold tensorset. unfold mbind at 1, M_bind at 1, lift at 1. rewrite H. reflexivity.
Qed.

(** C3. A [tensorset] call whose tensor value is neither an [np.ndarray]
    nor a list nor a tuple raises [TypeError] and leaves the world as it
    was: no request reaches the transport. *)
Theorem tensorset_rejects_other_types key (o : obj) shape dtype w :
  (forall l, o <> OList l) -> (forall l, o <> OTuple l) ->
  tensorset server order key (Obj o) shape dtype w = (Raise TypeError, w).
Proof.
  intros Hlist Htuple.
  destruct o; try reflexivity; exfalso; [eapply Hlist | eapply Htuple]; reflexivity.
Qed.

(** C5. For a native array the dtype tag, the shape tokens and the payload
    of the request come from the array: the explicit [shape] and [dtype]
    arguments change nothing, and the payload, behind the marker [BLOB],
    is the array's raw bytes and never a value list.  The tag is the one
    of the element type; the shape tokens are the dimensions; the blob
    has one group of [itemsize] bytes for each element, in order, the
    byte of significance [j] of the element's two's-complement pattern
    standing where the byte order puts it; and read back as a buffer of
    that element type the blob gives the elements of the array. *)
Theorem tensorset_ndarray_from_array key (a : ndarray) shape dtype w :
  let args := [OStr "AI.TENSORSET"; key; OStr (dtype_tag (a_dtype a))]
              ++ map OInt (a_shape a)
              ++ [OStr "BLOB"; OBytes (tobytes order a)] in
  tensorset_args order key (Ndarray a) shape dtype = Ok args
  /\ tensorset server order key (Ndarray a) shape dtype w
     = tensorset server order key (Ndarray a) None ONone w
  /\ sent (snd (tensorset server order key (Ndarray a) shape dtype w))
     = sent w ++ [args]
  /\ dtype_tag (a_dtype a)
     = match a_dtype a with
       | float32 => "FLOAT" | float64 => "DOUBLE"
       | int8 => "INT8" | int16 => "INT16" | int32 => "INT32" | int64 => "INT64"
       | uint8 => "UINT8" | uint16 => "UINT16"
       end
  /\ length (tobytes order a) = (length (a_data a) * itemsize (a_dtype a))%nat
  /\ (forall (i j : nat) (v : Z),
        a_data a !! i = Some v -> (j < itemsize (a_dtype a))%nat ->
        tobytes order a
          !! (i * itemsize (a_dtype a) + byte_position order (itemsize (a_dtype a)) j)%nat
        = Some (byte_of_Z (((v mod 2 ^ elem_bits (a_dtype a)) / 256 ^ Z.of_nat j) mod 256)))
  /\ (native_array a ->
      frombuffer order (a_dtype a) (tobytes order a) = Ok (a_data a)).
Proof.
  intros args.
  assert (Hargs : forall s d, tensorset_args order key (Ndarray a) s d = Ok args)
    by reflexivity.
  split; [apply Hargs|]. split; [reflexivity|].
  split; [apply tensorset_sends, Hargs|].
  split; [destruct (a_dtype a); reflexivity|].
  split; [apply length_tobytes|].
  split; [intros i j v; apply tobytes_lookup|].
  intros (_ & _ & Hrange). apply frombuffer_tobytes, Hrange.
Qed.

(** C9. A [tensorset] call with a list or a tuple and no [dtype] raises
    nothing locally: the argument list is built with [None] where the
    dtype goes, and the request is issued. *)
Theorem tensorset_sequence_without_dtype key (is_tuple : bool) (l : list obj) shape w :
  let args := [OStr "AI.TENSORSET"; key; ONone]
              ++ map OInt (shape_or_default shape (length l))
              ++ [OStr "VALUES"] ++ l in
  tensorset_args order key (sequence is_tuple l) shape ONone = Ok args
  /\ tensorset server order key (sequence is_tuple l) shape ONone w
     = (r ← execute_command server args; lift (reply_decode r)) w
  /\ sent (snd (tensorset server order key (sequence is_tuple l) shape ONone w))
     = sent w ++ [args].
Proof.
  intros args.
  assert (Hargs : tensorset_args order key (sequence is_tuple l) shape ONone = Ok args)
    by (destruct is_tuple, shape; reflexivity).
  split; [exact Hargs|]. split; [|apply tensorset_sends, Hargs].
  unfold tensorset. unfold mbind at 1, M_bind at 1, lift at 1. rewrite Hargs. reflexivity.
Qed.

(** C4, as the code has it.  For a list or a tuple the argument list is
    the command, the key, the dtype, the shape tokens, the marker
    [VALUES] and then the elements of the sequence as they are given, as
    many as the sequence has; the count is not compared with the product
    of the shape.  Without a shape the shape sent is the length of the
    sequence, and then the count is the product of the shape.  The call
    on key "x" with [1,2,3,4], shape (2,2) and dtype "FLOAT" ends in the
    shape tokens 2, 2, the marker and the four values. *)
Theorem tensorset_sequence_args key (is_tuple : bool) (l : list obj) shape dtype w :
  let args := [OStr "AI.TENSORSET"; key; dtype]
              ++ map OInt (shape_or_default shape (length l))
              ++ OStr "VALUES" :: l in
  tensorset_args order key (sequence is_tuple l) shape dtype = Ok args
  /\ sent (snd (tensorset server order key (sequence is_tuple l) shape dtype w))
     = sent w ++ [args]
  /\ tensorset_args order key (sequence is_tuple l) None dtype
     = Ok ([OStr "AI.TENSORSET"; key; dtype; OInt (Z.of_nat (length l)); OStr "VALUES"] ++ l)
  /\ shape_size (shape_or_default None (length l)) = Z.of_nat (length l)
  /\ tensorset_args order (OStr "x")
       (sequence false [OInt 1; OInt 2; OInt 3; OInt 4]) (Some [2; 2]) (OStr "FLOAT")
     = Ok [OStr "AI.TENSORSET"; OStr "x"; OStr "FLOAT"; OInt 2; OInt 2;
           OStr "VALUES"; OInt 1; OInt 2; OInt 3; OInt 4].
Proof.
  intros args.
  assert (Hargs : tensorset_args order key (sequence is_tuple l) shape dtype = Ok args)
    by (destruct is_tuple, shape; reflexivity).
  split; [exact Hargs|]. split; [apply tensorset_sends, Hargs|].
  split; [destruct is_tuple; reflexivity|].
  split; [|reflexivity].
  unfold shape_or_default, shape_size. cbn [fold_right]. lia.
Qed.

(** C10. With a backend that upper-cases to "TF", an empty list of input
    or output node names is no node names: the call raises [ValueError]
    with the world as it was, exactly as with [None]. *)
Theorem modelset_tf_empty_names name backend device data batch minbatch tag
    inputs outputs w :
  str_upper backend = "TF" ->
  no_names inputs = true \/ no_names outputs = true ->
  modelset server name backend device data batch minbatch tag inputs outputs w
  = (Raise ValueError, w)
  /\ modelset server name backend device data batch minbatch tag inputs outputs w
     = modelset server name backend device data batch minbatch tag ONone ONone w.
Proof.
  intros Htf Hnone.
  assert (Hfalse : py_all [inputs; outputs] = false).
  { unfold py_all. cbn [forallb].
    destruct Hnone as [H|H].
    - destruct inputs as [| | | | | |[|]|]; try discriminate H; reflexivity.
    - destruct outputs as [| | | | | |[|]|]; try discriminate H;
        apply andb_false_intro2; reflexivity. }
  split.
  - apply modelset_raises. rewrite modelset_args_tf, Hfalse by exact Htf. reflexivity.
  - rewrite !(modelset_raises _ _ _ _ _ _ _ _ _ ValueError); [reflexivity | |];
      rewrite modelset_args_tf by exact Htf; [reflexivity|].
    rewrite Hfalse. reflexivity.
Qed.

(** C2, as the code has it.  With a backend that upper-cases to "TF": a
    call without the input or without the output node names raises
    [ValueError] with the world as it was; a call with a non-empty list
    of each builds the head of the command, the marker [INPUTS] and the
    input names, the marker [OUTPUTS] and the output names, then the
    model data, and issues that request. *)
Theorem modelset_tf_node_names name backend device data batch minbatch tag
    inputs outputs w :
  str_upper backend = "TF" ->
  (inputs = ONone \/ outputs = ONone ->
   modelset server name backend device data batch minbatch tag inputs outputs w
   = (Raise ValueError, w))
  /\ (forall i ins o outs,
        inputs = OList (i :: ins) -> outputs = OList (o :: outs) ->
        let args := modelset_head name backend device batch minbatch tag
                    ++ [OStr "INPUTS"] ++ (i :: ins)
                    ++ [OStr "OUTPUTS"] ++ (o :: outs) ++ [data] in
        modelset_args name backend device data batch minbatch tag inputs outputs = Ok args
        /\ sent (snd (modelset server name backend device data batch minbatch tag
                        inputs outputs w))
           = sent w ++ [args]).
Proof.
  intros Htf. split.
  - intros Hnone. apply modelset_raises. rewrite modelset_args_tf by exact Htf.
    destruct Hnone as [-> | ->]; [reflexivity|].
    unfold py_all. cbn [forallb truthy]. rewrite andb_false_r. reflexivity.
  - intros i ins o outs -> -> args.
    assert (Hargs : modelset_args name backend device data batch minbatch tag
                      (OList (i :: ins)) (OList (o :: outs)) = Ok args)
      by (rewrite modelset_args_tf by exact Htf; reflexivity).
    split; [exact Hargs | apply modelset_sends, Hargs].
Qed.

End CommandBuilding.

(** ** Decoding replies *)

Lemma pair_induction {A} (P : list A -> Prop) :
  P [] -> (forall x, P [x]) -> (forall x y l, P l -> P (x :: y :: l)) ->
  forall l, P l.
Proof.
  intros Hnil Hone Hstep l.
  assert (H : P l /\ forall x, P (x :: l)); [|apply H].
  induction l as [|y l [IH1 IH2]]; split; auto.
Qed.

(** Every list of even length whose even-indexed elements are binary text
    is a flat key/value reply. *)
Lemma flat_reply_complete (items : list robj) :
  Nat.even (length items) = true ->
  (forall i x, items !! (2 * i)%nat = Some x -> exists b, x = RBytes b) ->
  exists kvs, items = flat_reply kvs.
Proof.
  induction items as [|x|k v rest IH] using pair_induction; intros Heven Hkeys.
  - exists []. reflexivity.
  - discriminate Heven.
  - destruct (Hkeys 0%nat k eq_refl) as [b ->].
    destruct IH as [kvs ->].
    + exact Heven.
    + intros i x Hx. apply (Hkeys (S i)).
      replace (2 * S i)%nat with (S (S (2 * i))) by lia. exact Hx.
    + exists ((b, v) :: kvs). reflexivity.
Qed.

Lemma decode_nested_fst (fuel : nat) (h : store) (v : robj) :
  fst (decode_nested fuel h v)
  = match v with RBytes b => RStr (bytes_decode b) | _ => v end.
Proof.
  destruct fuel as [|f], v as [| | | | |p]; try reflexivity.
  cbn [decode_nested]. destruct (h !! p) as [items|]; [|reflexivity].
  destruct (thread_store (decode_nested f) h items). reflexivity.
Qed.

Lemma decode_value_ok (key : string) (v : robj) (w : world) :
  exists h', decode_value key v w = (Ok (value_text key v), mkworld (sent w) h').
Proof.
  unfold decode_value, value_text.
  destruct (String.eqb key "blob").
  - exists (heap w). destruct w; reflexivity.
  - pose proof (decode_nested_fst (size (heap w)) (heap w) v) as Hfst.
    destruct (decode_nested (size (heap w)) (heap w) v) as [v' h'].
    exists h'. cbn [fst] in Hfst. rewrite Hfst. reflexivity.
Qed.

Lemma list2dict_fold_flat (kvs : list (list byte * robj)) (out : dict) (w : world) :
  exists h',
    list2dict_fold (flat_reply kvs) out w
    = (Ok (fold_left (fun d kv => dict_set d (fst (entry_of kv)) (snd (entry_of kv)))
             kvs out),
       mkworld (sent w) h').
Proof.
  revert out w. induction kvs as [|[k v] kvs IH]; intros out w.
  - exists (heap w). destruct w; reflexivity.
  - cbn [flat_reply map concat app fst snd list2dict_fold fold_left].
    fold (flat_reply kvs).
    destruct (decode_value_ok (norm_key k) v w) as [h1 Hv].
    unfold mbind at 1, M_bind at 1. unfold lift, decode_key. cbn beta iota.
    unfold mbind at 1, M_bind at 1. fold (norm_key k). rewrite Hv.
    destruct (IH (dict_set out (norm_key k) (value_text (norm_key k) v))
                 (mkworld (sent w) h1)) as [h2 Hrest].
    exists h2. exact Hrest.
Qed.

Lemma list2dict_flat (p : loc) (kvs : list (list byte * robj)) (w : world) :
  heap w !! p = Some (flat_reply kvs) ->
  exists h', list2dict (RList p) w = (Ok (dict_of_pairs kvs), mkworld (sent w) h').
Proof.
  intros Hp. unfold list2dict, load. unfold mbind, M_bind. rewrite Hp.
  apply list2dict_fold_flat.
Qed.


(** *** Keys, order and size of the mapping *)











(** *** Values of the mapping *)



Lemma dict_get_set (d : dict) (k : string) (v : robj) (k' : string) :
  dict_get (dict_set d k v) k' = if String.eqb k k' then Some v else dict_get d k'.
Proof.
  induction d as [|[k0 v0] d IH]; [reflexivity|]. cbn [dict_set].
  destruct (String.eqb_spec k0 k) as [->|Hne]; cbn [dict_get].
  - destruct (String.eqb k k'); reflexivity.
  - rewrite IH.
    destruct (String.eqb_spec k0 k') as [->|_]; [|reflexivity].
    destruct (String.eqb_spec k k') as [->|_]; [congruence | reflexivity].
Qed.

Lemma dict_get_fold (kvs : list (list byte * robj)) (acc : dict) (k : string) :
  dict_get
    (fold_left (fun d kv => dict_set d (fst (entry_of kv)) (snd (entry_of kv))) kvs acc) k
  = fold_left
      (fun o kv => if String.eqb (fst (entry_of kv)) k then Some (snd (entry_of kv)) else o)
      kvs (dict_get acc k).
Proof.
  revert acc. induction kvs as [|kv kvs IH]; intros acc; [reflexivity|].
  cbn [fold_left]. now rewrite IH, dict_get_set.
Qed.


(** ** Running the monad *)

Lemma bind_ok {A B} (m : M A) (k : A -> M B) (w w' : world) (a : A) :
  m w = (Ok a, w') -> (m ≫= k) w = k a w'.
Proof. intros H. unfold mbind, M_bind. now rewrite H. Qed.

Lemma lift_ok {A} (o : outcome A) (a : A) (w : world) :
  o = Ok a -> lift o w = (Ok a, w).
Proof. now intros ->. Qed.

Lemma load_ok (p : loc) (items : list robj) (w : world) :
  heap w !! p = Some items -> load p w = (Ok items, w).
Proof. intros H. unfold load. now rewrite H. Qed.

Lemma execute_command_ok server (args : list obj) (r : robj) (h : store) (w : world) :
  server args = Ok (r, h) ->
  execute_command server args w = (Ok r, mkworld (sent w ++ [args]) (h ∪ heap w)).
Proof. intros H. unfold execute_command. now rewrite H. Qed.

(** One step of a run: the first action of a bind returns normally. *)
Tactic Notation "run" uconstr(H) := rewrite (bind_ok _ _ _ _ _ H).

(** ** Value-list coercion *)





(** ** Decoding never issues a request *)

Lemma list2dict_fold_sent (items : list robj) :
  forall (out : dict) (w : world), sent (snd (list2dict_fold items out w)) = sent w.
Proof.
  induction items as [|x|k v rest IH] using pair_induction; intros out w;
    try reflexivity.
  cbn [list2dict_fold]. unfold mbind at 1, M_bind at 1, lift at 1.
  destruct (decode_key k) as [key|e]; [|reflexivity].
  destruct (decode_value_ok key v w) as [h1 Hv].
  rewrite (bind_ok _ _ _ _ _ Hv), IH. reflexivity.
Qed.

Lemma list2dict_sent (r : robj) (w : world) :
  sent (snd (list2dict r w)) = sent w.
Proof.
  destruct r; try reflexivity. unfold list2dict, load.
  unfold mbind, M_bind. destruct (heap w !! p); [|reflexivity].
  apply list2dict_fold_sent.
Qed.

Lemma last_value_fold (kvs : list (list byte * robj)) (k : string) (o : option robj) :
  fold_left
    (fun acc kv => if String.eqb (fst (entry_of kv)) k then Some (snd (entry_of kv)) else acc)
    kvs o = None
  <-> o = None /\ k ∉ map (fun kv => fst (entry_of kv)) kvs.
Proof.
  revert o. induction kvs as [|kv kvs IH]; intros o; cbn [fold_left map].
  - split; [intros ->; split; [reflexivity | apply not_elem_of_nil] | now intros [-> _]].
  - rewrite IH, not_elem_of_cons.
    destruct (String.eqb_spec (fst (entry_of kv)) k) as [->|Hne];
      split; intros [H1 H2]; try discriminate; intuition congruence.
Qed.

Lemma last_value_None (kvs : list (list byte * robj)) (k : string) :
  last_value kvs k = None <-> k ∉ map (fun kv => fst (entry_of kv)) kvs.
Proof. unfold last_value. rewrite last_value_fold. intuition. Qed.

Lemma dict_of_pairs_get (kvs : list (list byte * robj)) (k : string) :
  dict_get (dict_of_pairs kvs) k = last_value kvs k.
Proof. apply (dict_get_fold kvs [] k). Qed.

(** ** Getting tensors *)

Section TensorGet.

Variable server : list obj -> outcome (robj * store).
Variable py_float : robj -> outcome Z.
Variable py_int : robj -> outcome Z.
Variable order : byteorder.





(** C8. With [meta_only] set, whatever [as_numpy] is, the one request
    [tensorget] issues is the command, the key and the token [META], with
    no [BLOB] and no [VALUES] token after it; and when the server answers
    it with the metadata (a flat reply that has the keys "dtype" and
    "shape" and neither "values" nor "blob") the call returns the decoded
    mapping as it is, holding "dtype" and "shape" and no "values" and no
    "blob" key. *)
Theorem tensorget_meta_only key (as_numpy : bool) (w : world) :
  let args := [OStr "AI.TENSORGET"; key; OStr "META"] in
  sent (snd (tensorget server py_float py_int order key as_numpy true w)) = sent w ++ [args]
  /\ forall (q : loc) (h : store) (kvs : list (list byte * robj)),
       let keys := map (fun kv => fst (entry_of kv)) kvs in
       server args = Ok (RList q, h) ->
       h !! q = Some (flat_reply kvs) ->
       "dtype" ∈ keys -> "shape" ∈ keys -> "values" ∉ keys -> "blob" ∉ keys ->
       exists d,
         fst (tensorget server py_float py_int order key as_numpy true w) = Ok (AsDict d)
         /\ d = dict_of_pairs kvs
         /\ dict_get d "dtype" = last_value kvs "dtype"
         /\ dict_get d "shape" = last_value kvs "shape"
         /\ is_Some (dict_get d "dtype")
         /\ is_Some (dict_get d "shape")
         /\ getitem d "values" = Raise KeyError
         /\ getitem d "blob" = Raise KeyError.
Proof.
  intros args. split.
  - unfold tensorget. cbn [negb]. fold args.
    unfold mbind at 1, M_bind at 1, execute_command at 1.
    destruct (server args) as [[r h]|e]; [|reflexivity].
    pose proof (list2dict_sent r (mkworld (sent w ++ [args]) (h ∪ heap w))) as Hsent.
    unfold mbind, M_bind.
    destruct (list2dict r (mkworld (sent w ++ [args]) (h ∪ heap w))) as [[res|e] w1];
      exact Hsent.
  - intros q h kvs keys Hserver Hq Hdtype Hshape Hvalues Hblob.
    assert (Hq' : heap (mkworld (sent w ++ [args]) (h ∪ heap w)) !! q
                  = Some (flat_reply kvs))
      by (apply lookup_union_Some_l, Hq).
    destruct (list2dict_flat q kvs _ Hq') as [h' Hrun].
    exists (dict_of_pairs kvs).
    split.
    { unfold tensorget. cbn [negb]. fold args.
      run (execute_command_ok _ _ _ _ _ Hserver).
      rewrite (bind_ok _ _ _ _ _ Hrun). reflexivity. }
    split; [reflexivity|].
    split; [apply dict_of_pairs_get|]. split; [apply dict_of_pairs_get|].
    unfold getitem. rewrite !dict_of_pairs_get.
    repeat split.
    + apply not_eq_None_Some. rewrite last_value_None. intros H. exact (H Hdtype).
    + apply not_eq_None_Some. rewrite last_value_None. intros H. exact (H Hshape).
    + apply last_value_None in Hvalues. now rewrite Hvalues.
    + apply last_value_None in Hblob. now rewrite Hblob.
Qed.

(** [modelget] decodes its reply with the same fold. *)
Lemma modelget_flat_reply name (meta_only : bool) (w : world) (q : loc) (h : store)
    (kvs : list (list byte * robj)) :
  let args := [OStr "AI.MODELGET"; name; OStr "META"]
              ++ (if meta_only then [] else [OStr "BLOB"]) in
  server args = Ok (RList q, h) ->
  h !! q = Some (flat_reply kvs) ->
  fst (modelget server name meta_only w) = Ok (dict_of_pairs kvs)
  /\ sent (snd (modelget server name meta_only w)) = sent w ++ [args].
Proof.
  intros args Hserver Hq. unfold modelget.
  replace (if negb meta_only
           then [OStr "AI.MODELGET"; name; OStr "META"] ++ [OStr "BLOB"]
           else [OStr "AI.MODELGET"; name; OStr "META"])
    with args by (destruct meta_only; reflexivity).
  run (execute_command_ok _ _ _ _ _ Hserver).
  assert (Hq' : heap (mkworld (sent w ++ [args]) (h ∪ heap w)) !! q
                = Some (flat_reply kvs))
    by (apply lookup_union_Some_l, Hq).
  destruct (list2dict_flat q kvs _ Hq') as [h' Hrun].
  rewrite Hrun. split; reflexivity.
Qed.

End TensorGet.

(** ** Round trip of a tensor *)

Lemma thread_store_ints (f : nat) (h : store) (l : list Z) :
  thread_store (decode_nested f) h (map RInt l) = (map RInt l, h).
Proof.
  induction l as [|z l IH]; [reflexivity|].
  cbn [map thread_store].
  replace (decode_nested f h (RInt z)) with (RInt z, h) by (destruct f; reflexivity).
  now rewrite IH.
Qed.

Lemma decode_nested_ints (fuel : nat) (h : store) (q : loc) (l : list Z) :
  h !! q = Some (map RInt l) -> decode_nested fuel h (RList q) = (RList q, h).
Proof.
  intros Hq. destruct fuel as [|f]; [reflexivity|].
  cbn [decode_nested]. rewrite Hq, thread_store_ints, insert_id by exact Hq.
  reflexivity.
Qed.

Lemma decode_value_ints (key : string) (q : loc) (l : list Z) (w : world) :
  heap w !! q = Some (map RInt l) -> decode_value key (RList q) w = (Ok (RList q), w).
Proof.
  intros Hq. unfold decode_value. destruct (String.eqb key "blob"); [reflexivity|].
  rewrite (decode_nested_ints _ _ _ _ Hq). destruct w; reflexivity.
Qed.

Lemma decode_value_bytes (key : string) (b : list byte) (w : world) :
  decode_value key (RBytes b) w = (Ok (value_text key (RBytes b)), w).
Proof.
  unfold decode_value, value_text. destruct (String.eqb key "blob"); [reflexivity|].
  replace (decode_nested (size (heap w)) (heap w) (RBytes b))
    with (RStr (bytes_decode b), heap w) by (destruct (size (heap w)); reflexivity).
  destruct w; reflexivity.
Qed.

Lemma bytes_decode_encode (s : string) : bytes_decode (list_byte_of_string s) = s.
Proof. apply string_of_list_byte_of_string. Qed.

Lemma list2dict_blob_reply (p q : loc) (tag : string) (shape : list Z)
    (blob : list byte) (w : world) :
  heap w !! p = Some (blob_reply q tag blob) ->
  heap w !! q = Some (map RInt shape) ->
  list2dict (RList p) w
  = (Ok [("dtype", RStr tag); ("shape", RList q); ("blob", RBytes blob)], w).
Proof.
  intros Hp Hq. unfold list2dict.
  run (load_ok _ _ _ Hp).
  unfold blob_reply, flat_reply. cbn [map concat app fst snd list2dict_fold].
  run (lift_ok _ "dtype" _ eq_refl).
  run (decode_value_bytes _ _ _).
  run (lift_ok _ "shape" _ eq_refl).
  run (decode_value_ints _ _ _ _ Hq).
  run (lift_ok _ "blob" _ eq_refl).
  run (decode_value_bytes _ _ _).
  unfold value_text. cbn [String.eqb Ascii.eqb Bool.eqb dict_set].
  rewrite bytes_decode_encode. reflexivity.
Qed.

Lemma convert_all_ints (l : list Z) : convert_all as_int (map RInt l) = Ok l.
Proof. induction l as [|z l IH]; [reflexivity|]. cbn. now rewrite IH. Qed.

Lemma call_blob2numpy_ok (order : byteorder) (blob : list byte) (q : loc)
    (shape : list Z) (tag : string) (a : ndarray) (w : world) :
  heap w !! q = Some (map RInt shape) ->
  blob2numpy order blob shape tag = Ok a ->
  call_blob2numpy order (RBytes blob) (RList q) (RStr tag) w = (Ok a, w).
Proof.
  intros Hq Hdecode. unfold call_blob2numpy.
  run (lift_ok _ blob _ eq_refl).
  unfold as_shape.
  rewrite (bind_ok (load q ≫= _) _ w w shape).
  2:{ run (load_ok _ _ _ Hq).
      apply lift_ok, convert_all_ints. }
  run (lift_ok _ tag _ eq_refl).
  apply lift_ok, Hdecode.
Qed.

Section RoundTrip.

Variable server : list obj -> outcome (robj * store).
Variable py_float : robj -> outcome Z.
Variable py_int : robj -> outcome Z.
Variable order : byteorder.

(** C1. For an array of any supported element type, the triple
    [numpy2blob] makes of it (the triple [tensorset] sends behind the key,
    the blob behind the marker [BLOB]) is decoded by [blob2numpy] to the
    array itself, values and shape; and [tensorget] on its [as_numpy]
    path, answered with that triple, returns the array. *)
Theorem tensor_roundtrip (a : ndarray) key (shape0 : option (list Z)) (dtype0 : obj)
    (w : world) (p q : loc) (h : store) :
  native_array a ->
  let tag := dtype_tag (a_dtype a) in
  let shape := a_shape a in
  let blob := tobytes order a in
  let request := [OStr "AI.TENSORGET"; key; OStr "META"; OStr "BLOB"] in
  numpy2blob order a = (tag, shape, blob)
  /\ blob2numpy order blob shape tag = Ok a
  /\ tensorset_args order key (Ndarray a) shape0 dtype0
     = Ok ([OStr "AI.TENSORSET"; key; OStr tag] ++ map OInt shape
           ++ [OStr "BLOB"; OBytes blob])
  /\ (server request = Ok (RList p, h) ->
      h !! p = Some (blob_reply q tag blob) ->
      h !! q = Some (map RInt shape) ->
      tensorget server py_float py_int order key true false w
      = (Ok (AsArray a), mkworld (sent w ++ [request]) (h ∪ heap w))).
Proof.
  intros Ha tag shape blob request.
  assert (Hdecode : blob2numpy order blob shape tag = Ok a)
    by (apply blob2numpy_numpy2blob, Ha).
  split; [reflexivity|]. split; [exact Hdecode|]. split; [reflexivity|].
  intros Hserver Hp Hq.
  unfold tensorget. cbn [negb]. fold request.
  run (execute_command_ok _ _ _ _ _ Hserver).
  set (w1 := mkworld (sent w ++ [request]) (h ∪ heap w)).
  assert (Hp1 : heap w1 !! p = Some (blob_reply q tag blob))
    by (apply lookup_union_Some_l, Hp).
  assert (Hq1 : heap w1 !! q = Some (map RInt shape))
    by (apply lookup_union_Some_l, Hq).
  run (list2dict_blob_reply _ _ _ _ _ _ Hp1 Hq1).
  run (lift_ok _ (RBytes blob) _ eq_refl).
  run (lift_ok _ (RList q) _ eq_refl).
  run (lift_ok _ (RStr tag) _ eq_refl).
  run (call_blob2numpy_ok _ _ _ _ _ _ _ Hq1 Hdecode).
  reflexivity.
Qed.

End RoundTrip.

(** ** Concrete runs *)

Lemma tensorset_rejects_other_types_witness :
  (forall l, OInt 3 <> OList l) /\ (forall l, OInt 3 <> OTuple l)
  /\ tensorset confirming_server LittleEndian (OStr "x") (Obj (OInt 3)) None (OStr "FLOAT")
       initial_world
     = (Raise TypeError, initial_world).
Proof.
  split; [intros l; discriminate|]. split; [intros l; discriminate|].
  apply tensorset_rejects_other_types; intros l; discriminate.
Defined.

Lemma sample_array_native : native_array sample_array.
Proof.
  unfold native_array, sample_array. cbn [a_shape a_data a_dtype].
  split; [repeat (apply List.Forall_cons; [lia|]); apply List.Forall_nil|].
  split; [reflexivity|].
  repeat (apply List.Forall_cons;
          [unfold elem_range, elem_bits; cbn [is_signed itemsize];
           change (2 ^ (8 * Z.of_nat 2 - 1)) with 32768; lia|]).
  apply List.Forall_nil.
Qed.

Lemma tensorset_ndarray_from_array_witness :
  native_array sample_array
  /\ tensorset_args LittleEndian (OStr "x") (Ndarray sample_array) (Some [9]) (OStr "FLOAT")
     = Ok [OStr "AI.TENSORSET"; OStr "x"; OStr "INT16"; OInt 2; OInt 2; OStr "BLOB";
           OBytes [x01; x00; xfe; xff; x2c; x01; x00; x80]]
  /\ tensorset_args BigEndian (OStr "x") (Ndarray sample_array) (Some [9]) (OStr "FLOAT")
     = Ok [OStr "AI.TENSORSET"; OStr "x"; OStr "INT16"; OInt 2; OInt 2; OStr "BLOB";
           OBytes [x00; x01; xff; xfe; x01; x2c; x80; x00]]
  /\ frombuffer LittleEndian int16 [x01; x00; xfe; xff; x2c; x01; x00; x80]
     = Ok [1; -2; 300; -32768].
Proof.
  split; [exact sample_array_native|].
  split; [apply (tensorset_ndarray_from_array confirming_server LittleEndian (OStr "x")
                   sample_array (Some [9]) (OStr "FLOAT") initial_world)|].
  split; [apply (tensorset_ndarray_from_array confirming_server BigEndian (OStr "x")
                   sample_array (Some [9]) (OStr "FLOAT") initial_world)|].
  apply (tensorset_ndarray_from_array confirming_server LittleEndian (OStr "x")
           sample_array (Some [9]) (OStr "FLOAT") initial_world).
  exact sample_array_native.
Defined.

Lemma modelset_tf_empty_names_witness :
  str_upper "tf" = "TF"
  /\ (no_names (OList []) = true \/ no_names (OList [OStr "out"]) = true)
  /\ modelset confirming_server (OStr "m") "tf" (OStr "CPU") (OBytes [])
       ONone ONone ONone (OList []) (OList [OStr "out"]) initial_world
     = (Raise ValueError, initial_world).
Proof.
  split; [reflexivity|]. split; [left; reflexivity|].
  apply (modelset_tf_empty_names confirming_server (OStr "m") "tf" (OStr "CPU") (OBytes [])
           ONone ONone ONone (OList []) (OList [OStr "out"]) initial_world).
  - reflexivity.
  - left. reflexivity.
Defined.

Lemma modelset_tf_node_names_witness :
  str_upper "TF" = "TF"
  /\ modelset confirming_server (OStr "m") "TF" (OStr "CPU") (OBytes [])
       ONone ONone ONone ONone (OList [OStr "out"]) initial_world
     = (Raise ValueError, initial_world)
  /\ modelset_args (OStr "m") "TF" (OStr "CPU") (OBytes [])
       (OInt 8) ONone ONone (OList [OStr "a"; OStr "b"]) (OList [OStr "out"])
     = Ok [OStr "AI.MODELSET"; OStr "m"; OStr "TF"; OStr "CPU"; OStr "BATCHSIZE"; OInt 8;
           OStr "INPUTS"; OStr "a"; OStr "b"; OStr "OUTPUTS"; OStr "out"; OBytes []].
Proof.
  split; [reflexivity|]. split.
  - apply (proj1 (modelset_tf_node_names confirming_server (OStr "m") "TF" (OStr "CPU")
                    (OBytes []) ONone ONone ONone ONone (OList [OStr "out"])
                    initial_world eq_refl)).
    left. reflexivity.
  - apply (proj2 (modelset_tf_node_names confirming_server (OStr "m") "TF" (OStr "CPU")
                    (OBytes []) (OInt 8) ONone ONone
                    (OList [OStr "a"; OStr "b"]) (OList [OStr "out"])
                    initial_world eq_refl)
             (OStr "a") [OStr "b"] (OStr "out") [] eq_refl eq_refl).
Defined.

(** C2 as stated fails: both node-name lists are supplied, the input one
    empty, and no argument list is built. *)
Lemma modelset_tf_supplied_empty_list :
  modelset_args (OStr "m") "TF" (OStr "CPU") (OBytes [])
    ONone ONone ONone (OList []) (OList [OStr "out"])
  = Raise ValueError
  /\ modelset confirming_server (OStr "m") "TF" (OStr "CPU") (OBytes [])
       ONone ONone ONone (OList []) (OList [OStr "out"]) initial_world
     = (Raise ValueError, initial_world).
Proof. split; reflexivity. Qed.

(** C4 as stated fails: three values go out under the shape (2, 2), whose
    product is four; and a nested sequence goes out as its two rows, not
    as four flattened values. *)
Lemma tensorset_count_and_nesting :
  tensorset_args LittleEndian (OStr "x") (sequence false [OInt 1; OInt 2; OInt 3])
    (Some [2; 2]) (OStr "FLOAT")
  = Ok [OStr "AI.TENSORSET"; OStr "x"; OStr "FLOAT"; OInt 2; OInt 2;
        OStr "VALUES"; OInt 1; OInt 2; OInt 3]
  /\ Z.of_nat (length [OInt 1; OInt 2; OInt 3]) <> shape_size [2; 2]
  /\ tensorset_args LittleEndian (OStr "x")
       (sequence false [OList [OInt 1; OInt 2]; OList [OInt 3; OInt 4]])
       (Some [2; 2]) (OStr "FLOAT")
     = Ok [OStr "AI.TENSORSET"; OStr "x"; OStr "FLOAT"; OInt 2; OInt 2;
           OStr "VALUES"; OList [OInt 1; OInt 2]; OList [OInt 3; OInt 4]].
Proof. split; [reflexivity|]. split; [discriminate | reflexivity]. Qed.




Lemma tensorget_meta_only_witness :
  meta_server [OStr "AI.TENSORGET"; OStr "x"; OStr "META"]
  = Ok (RList 0%nat, {[ 0%nat := flat_reply (meta_pairs 1%nat); 1%nat := [RInt 2; RInt 2] ]})
  /\ sent (snd (tensorget meta_server token_value token_value LittleEndian (OStr "x")
                  true true initial_world))
     = [[OStr "AI.TENSORGET"; OStr "x"; OStr "META"]]
  /\ fst (tensorget meta_server token_value token_value LittleEndian (OStr "x")
            true true initial_world)
     = Ok (AsDict [("dtype", RStr "FLOAT"); ("shape", RList 1%nat)]).
Proof.
  split; [reflexivity|].
  destruct (tensorget_meta_only meta_server token_value token_value LittleEndian
              (OStr "x") true initial_world) as [Hsent Hmeta].
  split; [exact Hsent|].
  destruct (Hmeta 0%nat _ (meta_pairs 1%nat) eq_refl eq_refl) as (d & Hrun & -> & _).
  - apply (bool_decide_unpack _). vm_compute. exact I.
  - apply (bool_decide_unpack _). vm_compute. exact I.
  - apply (bool_decide_unpack _). vm_compute. exact I.
  - apply (bool_decide_unpack _). vm_compute. exact I.
  - exact Hrun.
Defined.

Lemma tensor_roundtrip_witness :
  native_array sample_array
  /\ numpy2blob LittleEndian sample_array
     = ("INT16", [2; 2], [x01; x00; xfe; xff; x2c; x01; x00; x80])
  /\ blob2numpy LittleEndian [x01; x00; xfe; xff; x2c; x01; x00; x80] [2; 2] "INT16"
     = Ok sample_array
  /\ fst (tensorget (tensor_server "INT16" [2; 2] (tobytes LittleEndian sample_array))
            token_value token_value LittleEndian (OStr "x") true false initial_world)
     = Ok (AsArray sample_array).
Proof.
  assert (Hnative : native_array sample_array).
  { unfold native_array, sample_array. cbn [a_shape a_data a_dtype].
    split; [repeat (apply List.Forall_cons; [lia|]); apply List.Forall_nil|].
    split; [reflexivity|].
    repeat (apply List.Forall_cons;
            [unfold elem_range, elem_bits; cbn [is_signed itemsize];
             change (2 ^ (8 * Z.of_nat 2 - 1)) with 32768; lia|]).
    apply List.Forall_nil. }
  destruct (tensor_roundtrip
              (tensor_server "INT16" [2; 2] (tobytes LittleEndian sample_array))
              token_value token_value LittleEndian sample_array (OStr "x") None ONone
              initial_world 0%nat 1%nat
              (tensor_store "INT16" [2; 2] (tobytes LittleEndian sample_array)) Hnative)
    as (Hencode & Hdecode & _ & Hget).
  split; [exact Hnative|]. split; [exact Hencode|]. split; [exact Hdecode|].
  rewrite Hget; reflexivity.
Defined.

(** * Further properties of the commands *)

(** ** Actions that issue no request *)

Lemma keeps_ret {A} (a : A) : keeps_sent (mret a : M A).
Proof. intros w. reflexivity. Qed.

Lemma keeps_raise {A} (e : exn) : keeps_sent (raise e : M A).
Proof. intros w. reflexivity. Qed.

Lemma keeps_lift {A} (o : outcome A) : keeps_sent (lift o).
Proof. intros w. reflexivity. Qed.

Lemma keeps_load (p : loc) : keeps_sent (load p).
Proof. intros w. unfold load. destruct (heap w !! p); reflexivity. Qed.

Lemma keeps_store_list (p : loc) (items : list robj) : keeps_sent (store_list p items).
Proof. intros w. reflexivity. Qed.

Lemma keeps_bind {A B} (m : M A) (k : A -> M B) :
  keeps_sent m -> (forall a, keeps_sent (k a)) -> keeps_sent (m ≫= k).
Proof.
  intros Hm Hk w. unfold mbind, M_bind. specialize (Hm w).
  destruct (m w) as [[a|e] w1]; cbn [snd] in Hm; [|exact Hm].
  rewrite Hk. exact Hm.
Qed.

Lemma keeps_list2dict (r : robj) : keeps_sent (list2dict r).
Proof. intros w. apply list2dict_sent. Qed.

Lemma keeps_un_bytize_loop (p : loc) (target : robj -> outcome robj) (ixs : list nat) :
  keeps_sent (un_bytize_loop p target ixs).
Proof.
  induction ixs as [|ix ixs IH]; [apply keeps_ret|].
  cbn [un_bytize_loop]. apply keeps_bind; [apply keeps_load|]. intros arr.
  destruct (arr !! ix) as [o|]; [|apply keeps_raise].
  apply keeps_bind; [apply keeps_lift|]. intros v.
  apply keeps_bind; [apply keeps_store_list|]. intros _. exact IH.
Qed.

Lemma keeps_un_bytize (arr : robj) (target : robj -> outcome robj) :
  keeps_sent (un_bytize arr target).
Proof.
  destruct arr; try apply keeps_raise. unfold un_bytize.
  apply keeps_bind; [apply keeps_load|]. intros items.
  apply keeps_bind; [apply keeps_un_bytize_loop|]. intros _. apply keeps_ret.
Qed.

Lemma keeps_call_blob2numpy (order : byteorder) (value shape dtype : robj) :
  keeps_sent (call_blob2numpy order value shape dtype).
Proof.
  unfold call_blob2numpy.
  apply keeps_bind; [apply keeps_lift|]. intros b.
  apply keeps_bind.
  - unfold as_shape. destruct shape; try apply keeps_raise.
    apply keeps_bind; [apply keeps_load|]. intros items. apply keeps_lift.
  - intros dims. apply keeps_bind; [apply keeps_lift|]. intros tag. apply keeps_lift.
Qed.

Section OneRequest.

Variable server : list obj -> outcome (robj * store).
Variable py_float : robj -> outcome Z.
Variable py_int : robj -> outcome Z.
Variable order : byteorder.

(** A request followed by decoding is one request. *)
Lemma request_then {A} (args : list obj) (k : robj -> M A) (w : world) :
  (forall r, keeps_sent (k r)) ->
  sent (snd ((execute_command server args ≫= k) w)) = sent w ++ [args].
Proof.
  intros Hk. unfold mbind, M_bind, execute_command.
  destruct (server args) as [[r h]|e]; [|reflexivity].
  rewrite Hk. reflexivity.
Qed.

Lemma tensorget_args_eq key (as_numpy meta_only : bool) :
  (let args := [OStr "AI.TENSORGET"; key; OStr "META"] in
   if negb meta_only then
     if as_numpy then args ++ [OStr "BLOB"] else args ++ [OStr "VALUES"]
   else args)
  = tensorget_args key as_numpy meta_only.
Proof. destruct meta_only, as_numpy; reflexivity. Qed.

Lemma tensorget_unfold key (as_numpy meta_only : bool) :
  tensorget server py_float py_int order key as_numpy meta_only
  = (execute_command server (tensorget_args key as_numpy meta_only) ≫= fun res =>
     list2dict res ≫= fun res =>
     if meta_only then mret (AsDict res)
     else if as_numpy then
       blob ← lift (getitem res "blob");
       shape ← lift (getitem res "shape");
       dtype ← lift (getitem res "dtype");
       a ← call_blob2numpy order blob shape dtype;
       mret (AsArray a)
     else
       dtype ← lift (getitem res "dtype");
       let target :=
         if in_strs dtype ["FLOAT"; "DOUBLE"]
         then target_float py_float else target_int py_int in
       values ← lift (getitem res "values");
       un_bytize values target;;
       mret (AsDict res)).
Proof. unfold tensorget. rewrite tensorget_args_eq. reflexivity. Qed.

(** X1. Every [tensorget] call issues exactly one request, the command,
    the key and [META], followed by [BLOB] or [VALUES] unless [meta_only]
    is set; this holds whatever the server answers and whatever becomes
    of the decoding. *)
Theorem tensorget_one_request key (as_numpy meta_only : bool) (w : world) :
  sent (snd (tensorget server py_float py_int order key as_numpy meta_only w))
  = sent w ++ [tensorget_args key as_numpy meta_only].
Proof.
  rewrite tensorget_unfold. apply request_then. intros r.
  apply keeps_bind; [apply keeps_list2dict|]. intros res.
  destruct meta_only; [apply keeps_ret|]. destruct as_numpy.
  - repeat (apply keeps_bind; [apply keeps_lift|]; intros ?).
    apply keeps_bind; [apply keeps_call_blob2numpy|]. intros ?. apply keeps_ret.
  - repeat (apply keeps_bind; [apply keeps_lift|]; intros ?; cbv zeta).
    apply keeps_bind; [apply keeps_un_bytize|]. intros _. apply keeps_ret.
Qed.

End OneRequest.

(** ** What each command sends, and when it sends nothing *)

Section Commands.

Variable server : list obj -> outcome (robj * store).
Variable py_float : robj -> outcome Z.
Variable py_int : robj -> outcome Z.
Variable order : byteorder.



Lemma no_request_absurd (l : list (list obj)) (args : list obj) : l ++ [args] <> l.
Proof.
  intros H. apply (f_equal length) in H. rewrite length_app in H. cbn in H. lia.
Qed.

Lemma py_all_pair (a b : obj) :
  py_all [a; b] = false <-> truthy a = false \/ truthy b = false.
Proof.
  unfold py_all. cbn [forallb]. rewrite andb_true_r. apply andb_false_iff.
Qed.

(** X3. A [modelset] call leaves the transport untouched exactly when the
    backend upper-cases to "TF" and the input or the output node names
    are falsy; it then raises [ValueError].  Every other call issues one
    request, and the last token of that request is the model data. *)
Theorem modelset_no_request_iff name backend device data batch minbatch tag
    inputs outputs (w : world) :
  (sent (snd (modelset server name backend device data batch minbatch tag
                inputs outputs w)) = sent w
   <-> str_upper backend = "TF" /\ (truthy inputs = false \/ truthy outputs = false))
  /\ (sent (snd (modelset server name backend device data batch minbatch tag
                   inputs outputs w)) = sent w ->
      modelset server name backend device data batch minbatch tag inputs outputs w
      = (Raise ValueError, w))
  /\ (sent (snd (modelset server name backend device data batch minbatch tag
                   inputs outputs w)) <> sent w ->
      exists args,
        sent (snd (modelset server name backend device data batch minbatch tag
                     inputs outputs w)) = sent w ++ [args]
        /\ last args = Some data).
Proof.
  assert (Hcases :
    (str_upper backend = "TF" /\ py_all [inputs; outputs] = false
     /\ modelset_args name backend device data batch minbatch tag inputs outputs
        = Raise ValueError)
    \/ (~ (str_upper backend = "TF" /\ py_all [inputs; outputs] = false)
        /\ exists front,
             modelset_args name backend device data batch minbatch tag inputs outputs
             = Ok (front ++ [data]))).
  { unfold modelset_args. rewrite modelset_head_eq.
    destruct (String.eqb_spec (str_upper backend) "TF") as [Htf|Hne].
    - destruct (py_all [inputs; outputs]) eqn:Hall; cbn [negb obind].
      + right. split; [intros [_ H]; discriminate H|]. eexists. reflexivity.
      + left. auto.
    - right. split; [intros [H _]; exact (Hne H)|]. eexists. reflexivity. }
  destruct Hcases as [(Htf & Hall & Hargs) | (Hnot & front & Hargs)].
  - rewrite (modelset_raises _ _ _ _ _ _ _ _ _ _ _ _ Hargs). cbn [snd].
    split; [|split].
    + split; [intros _; split; [exact Htf | apply py_all_pair, Hall] | reflexivity].
    + reflexivity.
    + intros H. now contradiction H.
  - pose proof (modelset_sends server _ _ _ _ _ _ _ _ _ _ w Hargs) as Hsent.
    rewrite Hsent. split; [|split].
    + split.
      * intros H. now apply no_request_absurd in H.
      * intros [Htf Hfalsy]. contradiction Hnot. split; [exact Htf|].
        apply py_all_pair, Hfalsy.
    + intros H. now apply no_request_absurd in H.
    + intros _. exists (front ++ [data]). split; [reflexivity | apply last_snoc].
Qed.

(** X4. For a backend that does not upper-case to "TF", [modelset] never
    looks at the node names: whatever is passed as inputs and outputs,
    the request is the head of the command followed by the model data,
    and the call behaves as the call without node names. *)
Theorem modelset_other_backend_ignores_names name backend device data
    batch minbatch tag inputs outputs (w : world) :
  String.eqb (str_upper backend) "TF" = false ->
  modelset_args name backend device data batch minbatch tag inputs outputs
  = Ok (modelset_head name backend device batch minbatch tag ++ [data])
  /\ modelset server name backend device data batch minbatch tag inputs outputs w
     = modelset server name backend device data batch minbatch tag ONone ONone w.
Proof.
  intros Hne.
  assert (Hargs : forall i o,
            modelset_args name backend device data batch minbatch tag i o
            = Ok (modelset_head name backend device batch minbatch tag ++ [data])).
  { intros i o. unfold modelset_args. rewrite modelset_head_eq, Hne. reflexivity. }
  split; [apply Hargs|].
  unfold modelset. rewrite !Hargs. reflexivity.
Qed.

(** X5. [scriptset] tests the truth value of the tag and [modelset] tests
    whether it is [None]: a falsy tag (the empty string, say) is left out
    of the [scriptset] request, which is then the request for no tag;
    [modelset] (backend other than "TF", no batch sizes) sends the marker
    [TAG] and the tag for every tag other than [None], truthy or falsy. *)
Theorem tag_dropped_by_scriptset_sent_by_modelset name backend device data script tag
    inputs outputs :
  (truthy tag = false ->
   scriptset_args name device script tag = [OStr "AI.SCRIPTSET"; name; device; script]
   /\ scriptset_args name device script tag = scriptset_args name device script ONone)
  /\ (is_none tag = false ->
      String.eqb (str_upper backend) "TF" = false ->
      modelset_args name backend device data ONone ONone tag inputs outputs
      = Ok [OStr "AI.MODELSET"; name; OStr backend; device; OStr "TAG"; tag; data]).
Proof.
  split.
  - intros Hfalsy. unfold scriptset_args. rewrite Hfalsy. cbn [truthy].
    split; reflexivity.
  - intros Hsome Hne. unfold modelset_args. rewrite Hne, Hsome. reflexivity.
Qed.


End Commands.

(** ** Replies the commands cannot use *)

Section Replies.

Variable server : list obj -> outcome (robj * store).
Variable py_float : robj -> outcome Z.
Variable py_int : robj -> outcome Z.
Variable order : byteorder.





(** X9. Outside the metadata-only mode [tensorget] reads the keys "blob",
    "shape" and "dtype" (array path) or "dtype" and "values" (value-list
    path) from the decoded mapping: when one of them is missing the call
    raises [KeyError] and nothing is coerced or decoded, the world being
    the one the decoding of the reply left. *)
Theorem tensorget_missing_key key (as_numpy : bool) (w w1 : world) (reply : robj)
    (h0 : store) (res : dict) (k : string) :
  let args := tensorget_args key as_numpy false in
  server args = Ok (reply, h0) ->
  list2dict reply (mkworld (sent w ++ [args]) (h0 ∪ heap w)) = (Ok res, w1) ->
  k ∈ keys_read as_numpy ->
  dict_get res k = None ->
  tensorget server py_float py_int order key as_numpy false w = (Raise KeyError, w1).
Proof.
  intros args Hserver Hdict Hk Hmissing.
  rewrite tensorget_unfold. fold args.
  run (execute_command_ok _ _ _ _ _ Hserver). run Hdict.
  unfold getitem, keys_read in *. destruct as_numpy.
  - destruct (dict_get res "blob") as [blob|] eqn:Hblob; [|reflexivity].
    run (lift_ok _ blob w1 eq_refl).
    destruct (dict_get res "shape") as [shape|] eqn:Hshape; [|reflexivity].
    run (lift_ok _ shape w1 eq_refl).
    destruct (dict_get res "dtype") as [dtype|] eqn:Hdtype; [|reflexivity].
    exfalso. repeat (apply elem_of_cons in Hk as [-> | Hk]; [congruence|]).
    now apply elem_of_nil in Hk.
  - destruct (dict_get res "dtype") as [dtype|] eqn:Hdtype; [|reflexivity].
    run (lift_ok _ dtype w1 eq_refl). cbv zeta.
    destruct (dict_get res "values") as [values|] eqn:Hvalues; [|reflexivity].
    exfalso. repeat (apply elem_of_cons in Hk as [-> | Hk]; [congruence|]).
    now apply elem_of_nil in Hk.
Qed.

End Replies.

(** ** What a request tells about the call *)

Lemma ints_then_marker (s s' : list Z) (m m' : string) (l l' : list obj) :
  map OInt s ++ OStr m :: l = map OInt s' ++ OStr m' :: l' ->
  s = s' /\ m = m' /\ l = l'.
Proof.
  revert s'. induction s as [|z s IH]; intros [|z' s'] H; cbn in H.
  - injection H as -> ->. auto.
  - discriminate H.
  - discriminate H.
  - injection H as -> H. destruct (IH _ H) as (-> & -> & ->). auto.
Qed.

Lemma split_at_marker (m : obj) (ins ins' outs outs' : list obj) :
  m ∉ ins -> m ∉ ins' ->
  ins ++ m :: outs = ins' ++ m :: outs' ->
  ins = ins' /\ outs = outs'.
Proof.
  revert ins'. induction ins as [|a ins IH]; intros [|b ins'] Hm Hm' H; cbn in H.
  - injection H as ->. auto.
  - injection H as -> _. contradiction Hm'. left.
  - injection H as -> _. contradiction Hm. left.
  - injection H as -> H.
    apply not_elem_of_cons in Hm as [_ Hm]. apply not_elem_of_cons in Hm' as [_ Hm'].
    destruct (IH _ Hm Hm' H) as [-> ->]. auto.
Qed.

Section Requests.

Variable order : byteorder.

Lemma tensorset_args_sequence key (is_tuple : bool) (l : list obj) shape dtype :
  tensorset_args order key (sequence is_tuple l) shape dtype
  = Ok ([OStr "AI.TENSORSET"; key; dtype]
        ++ map OInt (shape_or_default shape (length l)) ++ OStr "VALUES" :: l).
Proof. destruct is_tuple, shape; reflexivity. Qed.

(** X10. The request of a [tensorset] call on a list or a tuple tells the
    key, the dtype, the shape that is sent and the values: two such calls
    that build the same request agree on all four.  (The shape tokens are
    integers and the marker is a string, so the marker found after the
    dtype is the one the client wrote.) *)
Theorem tensorset_sequence_request_injective key key' (t t' : bool) (l l' : list obj)
    shape shape' dtype dtype' :
  tensorset_args order key (sequence t l) shape dtype
  = tensorset_args order key' (sequence t' l') shape' dtype' ->
  key = key' /\ dtype = dtype'
  /\ shape_or_default shape (length l) = shape_or_default shape' (length l')
  /\ l = l'.
Proof.
  rewrite !tensorset_args_sequence. intros H.
  injection H as -> -> H. apply ints_then_marker in H as (-> & _ & ->). auto.
Qed.

(** X11. The request of a [tensorset] call on an array is never the
    request of a call on a list or a tuple: after the shape tokens the
    one has the marker [BLOB] and the other the marker [VALUES]. *)
Theorem tensorset_modes_disjoint key key' (a : ndarray) (t : bool) (l : list obj)
    shape shape' dtype dtype' :
  tensorset_args order key (Ndarray a) shape dtype
  <> tensorset_args order key' (sequence t l) shape' dtype'.
Proof.
  rewrite tensorset_args_sequence. cbn [tensorset_args numpy2blob].
  intros H. injection H as _ _ H.
  change ([OStr "BLOB"; OBytes (tobytes order a)])
    with (OStr "BLOB" :: [OBytes (tobytes order a)]) in H.
  apply ints_then_marker in H as (_ & Hmarker & _). discriminate Hmarker.
Qed.

End Requests.

(** X12. When no input key is the string "OUTPUTS", the request of a
    [modelrun] or [scriptrun] call on lists of keys tells the name (and
    the function) and where the inputs end and the outputs begin: two
    such calls that build the same request have the same inputs and the
    same outputs. *)
Theorem run_request_injective name name' function function'
    (ins ins' outs outs' : list obj) :
  OStr "OUTPUTS" ∉ ins -> OStr "OUTPUTS" ∉ ins' ->
  (modelrun_args name (OList ins) (OList outs)
   = modelrun_args name' (OList ins') (OList outs') ->
   name = name' /\ ins = ins' /\ outs = outs')
  /\ (scriptrun_args name function (OList ins) (OList outs)
      = scriptrun_args name' function' (OList ins') (OList outs') ->
      name = name' /\ function = function' /\ ins = ins' /\ outs = outs').
Proof.
  intros Hm Hm'. unfold modelrun_args, scriptrun_args. cbn [listify app]. split.
  - intros H. injection H as -> H.
    destruct (split_at_marker _ _ _ _ _ Hm Hm' H) as [-> ->]. auto.
  - intros H. injection H as -> -> H.
    destruct (split_at_marker _ _ _ _ _ Hm Hm' H) as [-> ->]. auto.
Qed.

(** X13. The run commands neither reject nor escape a key that is the
    string "OUTPUTS": moving such a key from the end of the inputs to
    the head of the outputs gives the same request. *)
Theorem run_request_marker_key name function (ins outs : list obj) :
  modelrun_args name (OList (ins ++ [OStr "OUTPUTS"])) (OList outs)
  = modelrun_args name (OList ins) (OList (OStr "OUTPUTS" :: outs))
  /\ scriptrun_args name function (OList (ins ++ [OStr "OUTPUTS"])) (OList outs)
     = scriptrun_args name function (OList ins) (OList (OStr "OUTPUTS" :: outs)).
Proof.
  unfold modelrun_args, scriptrun_args. cbn [listify app].
  rewrite <- !app_assoc. split; reflexivity.
Qed.

(** ** Concrete runs of the further properties *)

Lemma modelset_no_request_iff_witness :
  str_upper "tf" = "TF"
  /\ sent (snd (modelset confirming_server (OStr "m") "tf" (OStr "CPU") (OBytes [])
                  ONone ONone ONone (OList [OStr "a"]) (OStr "") initial_world))
     = sent initial_world
  /\ modelset confirming_server (OStr "m") "tf" (OStr "CPU") (OBytes [])
       ONone ONone ONone (OList [OStr "a"]) (OStr "") initial_world
     = (Raise ValueError, initial_world).
Proof.
  destruct (modelset_no_request_iff confirming_server (OStr "m") "tf" (OStr "CPU")
              (OBytes []) ONone ONone ONone (OList [OStr "a"]) (OStr "") initial_world)
    as (Hiff & Hraise & _).
  assert (Hsent : sent (snd (modelset confirming_server (OStr "m") "tf" (OStr "CPU")
                               (OBytes []) ONone ONone ONone (OList [OStr "a"]) (OStr "")
                               initial_world)) = sent initial_world).
  { apply Hiff. split; [reflexivity | right; reflexivity]. }
  split; [reflexivity|]. split; [exact Hsent | exact (Hraise Hsent)].
Defined.

Lemma modelset_other_backend_ignores_names_witness :
  String.eqb (str_upper "torch") "TF" = false
  /\ modelset_args (OStr "m") "torch" (OStr "GPU") (OBytes [x01])
       (OInt 0) ONone ONone (OList [OStr "a"]) ONone
     = Ok [OStr "AI.MODELSET"; OStr "m"; OStr "torch"; OStr "GPU";
           OStr "BATCHSIZE"; OInt 0; OBytes [x01]].
Proof.
  split; [reflexivity|].
  apply (modelset_other_backend_ignores_names confirming_server (OStr "m") "torch"
           (OStr "GPU") (OBytes [x01]) (OInt 0) ONone ONone (OList [OStr "a"]) ONone
           initial_world eq_refl).
Defined.

Lemma tag_dropped_by_scriptset_sent_by_modelset_witness :
  truthy (OStr "") = false
  /\ scriptset_args (OStr "s") (OStr "CPU") (OStr "def f(): pass") (OStr "")
     = [OStr "AI.SCRIPTSET"; OStr "s"; OStr "CPU"; OStr "def f(): pass"]
  /\ modelset_args (OStr "m") "ONNX" (OStr "CPU") (OBytes []) ONone ONone (OStr "")
       ONone ONone
     = Ok [OStr "AI.MODELSET"; OStr "m"; OStr "ONNX"; OStr "CPU";
           OStr "TAG"; OStr ""; OBytes []]
  /\ modelset_args (OStr "m") "ONNX" (OStr "CPU") (OBytes []) ONone ONone (OStr "v1")
       ONone ONone
     = Ok [OStr "AI.MODELSET"; OStr "m"; OStr "ONNX"; OStr "CPU";
           OStr "TAG"; OStr "v1"; OBytes []].
Proof.
  split; [reflexivity|].
  split; [apply (proj1 (tag_dropped_by_scriptset_sent_by_modelset (OStr "s") "ONNX"
                          (OStr "CPU") (OBytes []) (OStr "def f(): pass") (OStr "")
                          ONone ONone) eq_refl)|].
  split.
  - apply (proj2 (tag_dropped_by_scriptset_sent_by_modelset (OStr "m") "ONNX"
                    (OStr "CPU") (OBytes []) (OStr "def f(): pass") (OStr "")
                    ONone ONone) eq_refl eq_refl).
  - apply (proj2 (tag_dropped_by_scriptset_sent_by_modelset (OStr "m") "ONNX"
                    (OStr "CPU") (OBytes []) (OStr "def f(): pass") (OStr "v1")
                    ONone ONone) eq_refl eq_refl).
Defined.




Lemma tensorget_missing_key_witness :
  ("blob" ∈ keys_read true)
  /\ dict_get [("dtype", RStr "FLOAT"); ("shape", RList 1%nat)] "blob" = None
  /\ fst (tensorget meta_server token_value token_value LittleEndian (OStr "x") true false
            initial_world)
     = Raise KeyError.
Proof.
  assert (Hin : "blob" ∈ keys_read true) by (apply (bool_decide_unpack _); vm_compute; exact I).
  split; [exact Hin|]. split; [reflexivity|].
  rewrite (tensorget_missing_key meta_server token_value token_value LittleEndian
             (OStr "x") true initial_world
             (mkworld [tensorget_args (OStr "x") true false]
                {[ 0%nat := flat_reply (meta_pairs 1%nat); 1%nat := [RInt 2; RInt 2] ]})
             (RList 0%nat)
             {[ 0%nat := flat_reply (meta_pairs 1%nat); 1%nat := [RInt 2; RInt 2] ]}
             [("dtype", RStr "FLOAT"); ("shape", RList 1%nat)] "blob"
             eq_refl).
  - reflexivity.
  - vm_compute. reflexivity.
  - exact Hin.
  - reflexivity.
Defined.

Lemma tensorset_sequence_request_injective_witness :
  tensorset_args LittleEndian (OStr "x") (sequence false [OInt 1; OInt 2]) None (OStr "INT8")
  = tensorset_args LittleEndian (OStr "x") (sequence true [OInt 1; OInt 2]) (Some [2])
      (OStr "INT8")
  /\ shape_or_default None (length [OInt 1; OInt 2])
     = shape_or_default (Some [2]) (length [OInt 1; OInt 2]).
Proof.
  split; [reflexivity|].
  apply (tensorset_sequence_request_injective LittleEndian (OStr "x") (OStr "x")
           false true [OInt 1; OInt 2] [OInt 1; OInt 2] None (Some [2])
           (OStr "INT8") (OStr "INT8") eq_refl).
Defined.

Lemma tensorset_modes_disjoint_witness :
  tensorset_args LittleEndian (OStr "x") (Ndarray sample_array) None ONone
  <> tensorset_args LittleEndian (OStr "x") (sequence false [OInt 1; OInt (-2)])
       (Some [2; 2]) (OStr "INT16").
Proof. apply tensorset_modes_disjoint. Defined.

Lemma run_request_injective_witness :
  (OStr "OUTPUTS" ∉ [OStr "a"; OStr "b"])
  /\ ((modelrun_args (OStr "m") (OList [OStr "a"; OStr "b"]) (OList [OStr "c"])
       = modelrun_args (OStr "m") (OList [OStr "a"; OStr "b"]) (OList [OStr "c"])) ->
      (OStr "m" = OStr "m") /\ ([OStr "a"; OStr "b"] = [OStr "a"; OStr "b"])
      /\ ([OStr "c"] = [OStr "c"])).
Proof.
  assert (Hm : OStr "OUTPUTS" ∉ [OStr "a"; OStr "b"]).
  { intros H. repeat (apply elem_of_cons in H as [H|H]; [discriminate H|]).
    now apply elem_of_nil in H. }
  split; [exact Hm|].
  apply (run_request_injective (OStr "m") (OStr "m") (OStr "f") (OStr "f")
           [OStr "a"; OStr "b"] [OStr "a"; OStr "b"] [OStr "c"] [OStr "c"] Hm Hm).
Defined.
